(** * clinic-info: the clinic map embedder and the iframe height reporter

    A shallow embedding of the two scripts of the repository:

    - [Embedder]: the factory [embedClinicMap] (source/js/main.js) with its
      closures [isContentType], [fetchData], [fetchAllWithSetData],
      [createContents], [createClinicDetailsAccordion], [embedStyleTag]
      and [init];
    - [Reporter]: [reactiveContent] of src/js/script2.js with [debounce],
      [sendHeight] and the resize handler.

    JavaScript strings are byte strings holding the UTF-8 encoding of the
    text.  The browser is an explicit [World]: the document (what
    [document.querySelector] finds, the children of every element, the
    children of the head), the network (what [fetch] answers for a URL) and
    a trace of the observable calls ([fetch], body reads, console output).
    Exceptions are values of [exn]; a computation that throws keeps the
    effects it had before the throw. *)

From Stdlib Require Import String Ascii List Bool Arith ZArith Lia.
Import ListNotations.
Set Warnings "-register-all".
Local Open Scope string_scope.
Local Open Scope list_scope.

(** ** Strings *)

Module JsString.

(** The double quote character, as a one-character string. *)
Definition dq : string := String (ascii_of_nat 34) EmptyString.

(** A string is truthy when it is not empty. *)
Definition nonempty (s : string) : bool :=
  match s with
  | EmptyString => false
  | String _ _ => true
  end.

(** [String.prototype.startsWith]. *)
Definition startsWith (p s : string) : bool := String.prefix p s.

(** [String.prototype.includes]: [needle] occurs somewhere in [hay]. *)
Fixpoint includes (needle hay : string) : bool :=
  String.prefix needle hay ||
  match hay with
  | EmptyString => false
  | String _ rest => includes needle rest
  end.

(** White space and line terminators of one byte: TAB, LF, VT, FF, CR, SP. *)
Definition ws1 (c : ascii) : bool :=
  let n := nat_of_ascii c in
  ((n =? 9) || (n =? 10) || (n =? 11) || (n =? 12) || (n =? 13) || (n =? 32))%nat.

(** U+00A0 (no-break space) is C2 A0. *)
Definition ws2 (a b : ascii) : bool :=
  ((nat_of_ascii a =? 194) && (nat_of_ascii b =? 160))%nat.

(** The three-byte ones: U+1680, U+2000..U+200A, U+2028, U+2029, U+202F,
    U+205F, U+3000 and U+FEFF. *)
Definition ws3 (a b c : ascii) : bool :=
  let x := nat_of_ascii a in
  let y := nat_of_ascii b in
  let z := nat_of_ascii c in
  (((x =? 225) && (y =? 154) && (z =? 128)) ||
   ((x =? 226) && (y =? 128) &&
      (((128 <=? z) && (z <=? 138)) || (z =? 168) || (z =? 169) || (z =? 175))) ||
   ((x =? 226) && (y =? 129) && (z =? 159)) ||
   ((x =? 227) && (y =? 128) && (z =? 128)) ||
   ((x =? 239) && (y =? 187) && (z =? 191)))%nat.

(** [String.prototype.trimStart]. *)
Fixpoint trimStart (s : string) : string :=
  match s with
  | EmptyString => EmptyString
  | String a s1 =>
      if ws1 a then trimStart s1
      else
        match s1 with
        | EmptyString => s
        | String b s2 =>
            if ws2 a b then trimStart s2
            else
              match s2 with
              | EmptyString => s
              | String c s3 => if ws3 a b c then trimStart s3 else s
              end
        end
  end.

(** [String.prototype.trimEnd]: a suffix made of white space only goes. *)
Fixpoint trimEnd (s : string) : string :=
  match s with
  | EmptyString => EmptyString
  | String a rest =>
      if nonempty (trimStart s) then String a (trimEnd rest) else EmptyString
  end.

(** [String.prototype.trim]. *)
Definition trim (s : string) : string := trimEnd (trimStart s).

End JsString.

(** ** Values, exceptions and the page *)

Module Js.

(** What the scripts throw or receive as a rejection reason. *)
Inductive exn : Type :=
  | Error (message : string)      (* new Error(message) *)
  | HttpError (status : nat)      (* new Error(`HTTP error status: ${res.status}`) *)
  | TypeError                     (* property of null or undefined, call of a non-function *)
  | SyntaxError                   (* querySelector on a malformed selector *)
  | Failure (reason : string).    (* a rejection that comes from the platform:
                                     fetch that fails, body that cannot be read or parsed *)

Inductive result (A : Type) : Type :=
  | Ok (a : A)
  | Err (e : exn).
Arguments Ok {A} a.
Arguments Err {A} e.

(** A value produced by [JSON.parse].  A number keeps its literal: the
    scripts never compute with one, and what the engine makes of it when it
    is converted is part of [Runtime] below.  An object is the list of its
    own properties, looked up by key. *)
Inductive jsval : Type :=
  | JNull
  | JBool (b : bool)
  | JNum (literal : string)
  | JStr (s : string)
  | JArr (items : list jsval)
  | JObj (props : list (string * jsval)).

Fixpoint lookup (k : string) (props : list (string * jsval)) : option jsval :=
  match props with
  | [] => None
  | (k', v) :: rest => if String.eqb k k' then Some v else lookup k rest
  end.

(** [v.k] for a key that no prototype defines ([area], [clinics], [name],
    [hours], [closed], [address], [stations], [mapUrl]): [None] is
    [undefined]; reading a property of [null] throws. *)
Definition member (v : jsval) (k : string) : result (option jsval) :=
  match v with
  | JNull => Err TypeError
  | JObj props => Ok (lookup k props)
  | _ => Ok None
  end.

(** DOM nodes.  The HTML and XML parsers are not modelled: markup that
    comes from data and is parsed in a place of its own is kept as the
    markup it is. *)
Inductive node : Type :=
  | Element (tag : string) (attrs : list (string * string)) (children : list node)
  | Text (data : string)
  | Html (markup : string)          (* the nodes the HTML parser makes of [markup] *)
  | SvgDocument (source : string).  (* documentElement of parseFromString(source, 'image/svg+xml') *)

(** The item of an area is parsed from a template that has the text of
    the area in the middle of it, so markup in that text can change
    what is around it.  What [innerHTML] makes of the template is the
    first element of the wrapper, which is the item, and the element
    that [querySelector] finds for [.cl-details-acd__list-item-body]:
    inside the item, outside of it, or nowhere. *)
Inductive parsedItem : Type :=
  | BodyInside (item : list node -> node)   (* the item, from what is added to its body *)
  | BodyOutside (item : node)               (* what is added to the body is not in the item *)
  | BodyMissing (item : node).              (* querySelector returns null *)

(** The parts of the engine and of the page that the scripts call and that
    are not modelled further: the selector grammar of [querySelector], the
    conversion of numbers, arrays and objects to text, the truthiness of a
    number, the comparison [v > 0] of an arbitrary value, and what the
    HTML parser makes of the item template around an area text that
    holds a [<]. *)
Class Runtime : Type := {
  selector_ok : string -> bool;
  compound_to_string : jsval -> result string;
  number_truthy : string -> bool;
  gt_zero : jsval -> result bool;
  item_markup : string -> parsedItem
}.

(** A [Response] as the embedder reads it. *)
Record Response : Type := {
  ok : bool;
  status : nat;
  contentType : option string;   (* headers.get('Content-Type') *)
  text : result string;          (* what res.text() settles with *)
  json : result jsval            (* what res.json() settles with *)
}.

Inductive fetch_outcome : Type :=
  | Rejects (e : exn)
  | Responds (r : Response).

Inductive event : Type :=
  | EvFetch (url : string)
  | EvText (url : string)
  | EvJson (url : string)
  | EvConsoleLog (title map details : bool)   (* console.log(promises): which ones are set *)
  | EvConsoleError (e : exn).

(** Elements of the host page are named by a number; two selectors may
    find the same element.  What a selector finds does not change while
    an instance runs: a marker inside the slot of another section, which
    drawing that section would remove, is outside the model.  Every
    request settles: [net] says how. *)
Definition element : Type := nat.

Record World : Type := {
  find : string -> option element;      (* first match of a well-formed selector *)
  childNodes : element -> list node;
  head : list node;                     (* children of document.head *)
  net : string -> fetch_outcome;
  trace : list event
}.

End Js.

(** ** The embedder: source/js/main.js *)

Module Embedder.
Import JsString Js.

(** *** Computations of the page

    A computation runs on the render state of the instance and on the
    world; it returns a value or throws, and in both cases leaves the
    memory as its effects made it. *)

(** The [state] object of an instance. *)
Record State : Type := {
  titleSvg : string;
  mapSvg : string;
  clinicDetails : jsval;
  isVisibleTitle : bool;
  isVisibleMap : bool;
  isVisibleDetailsAccordion : bool
}.

Record Mem : Type := { state : State; world : World }.

Definition M (A : Type) : Type := Mem -> result A * Mem.

Definition ret {A} (a : A) : M A := fun m => (Ok a, m).

Definition throw {A} (e : exn) : M A := fun m => (Err e, m).

Definition bind {A B} (c : M A) (k : A -> M B) : M B :=
  fun m =>
    match c m with
    | (Ok a, m') => k a m'
    | (Err e, m') => (Err e, m')
    end.

(** try { body } catch (e) { handler e } *)
Definition try_catch {A} (body : M A) (handler : exn -> M A) : M A :=
  fun m =>
    match body m with
    | (Ok a, m') => (Ok a, m')
    | (Err e, m') => handler e m'
    end.

Notation "x <- c1 ;; c2" := (bind c1 (fun x => c2))
  (at level 61, c1 at next level, right associativity).
Notation "c1 ;; c2" := (bind c1 (fun _ => c2))
  (at level 61, right associativity).

Definition lift {A} (r : result A) : M A := fun m => (r, m).

Definition get_state : M State := fun m => (Ok (state m), m).

Definition set_state (f : State -> State) : M unit :=
  fun m => (Ok tt, {| state := f (state m); world := world m |}).

Definition get_world : M World := fun m => (Ok (world m), m).

Definition set_world (f : World -> World) : M unit :=
  fun m => (Ok tt, {| state := state m; world := f (world m) |}).

Definition addEvents (evs : list event) (w : World) : World :=
  {| find := find w; childNodes := childNodes w; head := head w;
     net := net w; trace := trace w ++ evs |}.

Definition emit (ev : event) : M unit := set_world (addEvents [ev]).

Definition console_error (e : exn) : M unit := emit (EvConsoleError e).

(** el.innerHTML = ''; el.appendChild(n) *)
Definition withChildren (el : element) (ns : list node) (w : World) : World :=
  {| find := find w;
     childNodes := fun x => if Nat.eqb x el then ns else childNodes w x;
     head := head w; net := net w; trace := trace w |}.

Definition replaceChildren (el : element) (n : node) : M unit :=
  set_world (withChildren el [n]).

(** document.head.appendChild(n) *)
Definition withHeadChild (n : node) (w : World) : World :=
  {| find := find w; childNodes := childNodes w; head := head w ++ [n];
     net := net w; trace := trace w |}.

Definition appendToHead (n : node) : M unit := set_world (withHeadChild n).

(** *** Conversions of the engine *)

Section WithRuntime.
Context {rt : Runtime}.

(** ToString, as a template literal applies it. *)
Definition ToString (v : jsval) : result string :=
  match v with
  | JNull => Ok "null"
  | JBool true => Ok "true"
  | JBool false => Ok "false"
  | JStr s => Ok s
  | _ => compound_to_string v
  end.

(** `${v ?? ''}` for a property [v] that may be undefined. *)
Definition orEmpty (v : option jsval) : result string :=
  match v with
  | None => Ok EmptyString
  | Some JNull => Ok EmptyString
  | Some x => ToString x
  end.

(** ToBoolean of a property that may be undefined. *)
Definition truthy (v : option jsval) : bool :=
  match v with
  | None => false
  | Some JNull => false
  | Some (JBool b) => b
  | Some (JNum n) => number_truthy n
  | Some (JStr s) => nonempty s
  | Some (JArr _) => true
  | Some (JObj _) => true
  end.

(** state.clinicDetails.length > 0 *)
Definition hasItems (v : jsval) : result bool :=
  match v with
  | JNull => Err TypeError
  | JBool _ => Ok false
  | JNum _ => Ok false
  | JStr s => Ok (nonempty s)
  | JArr items => Ok (match items with [] => false | _ :: _ => true end)
  | JObj props =>
      match lookup "length" props with
      | None => Ok false
      | Some len => gt_zero len
      end
  end.

(** document.querySelector(sel) *)
Definition querySelector (sel : string) : M (option element) :=
  fun m =>
    if selector_ok sel then (Ok (find (world m) sel), m)
    else (Err SyntaxError, m).

(** *** The factory *)

Record Colors : Type := {
  mainColor : option string;
  subColor : option string
}.

(** The argument of the factory: a property that is left out is [None]. *)
Record Params : Type := {
  parentSelector : option string;
  clinicType : option string;
  colors : option Colors
}.

(** What the closures of an instance capture besides [state]. *)
Record Env : Type := {
  env_parentSelector : string;
  env_clinicType : string;
  env_mainColor : string;
  env_subColor : string
}.

Definition defaultColors : string * string := ("#000", "#fff").

(** { ...defaultColors, ...colors } *)
Definition mergedColors (c : option Colors) : string * string :=
  match c with
  | None => defaultColors
  | Some given =>
      (match mainColor given with Some v => v | None => fst defaultColors end,
       match subColor given with Some v => v | None => snd defaultColors end)
  end.

Definition titleSelector (sel : string) : string := sel ++ " [data-cl-title]".
Definition mapSelector (sel : string) : string := sel ++ " [data-cl-map]".
Definition detailsSelector (sel : string) : string :=
  sel ++ " [data-cl-details-accordion]".

Definition requiredMessage : string :=
  dq ++ "parentSelector" ++ dq ++ " and " ++ dq ++ "clinicType" ++ dq
  ++ " is required.".

Definition idSelectorMessage : string := "Please specify an ID selector.".

(** Lines 13 to 20: the check of the arguments.  An absent property and an
    empty string are both falsy. *)
Definition validate (p : Params) : result (string * string) :=
  match parentSelector p, clinicType p with
  | Some sel, Some ct =>
      if negb (nonempty sel) || negb (nonempty ct) then Err (Error requiredMessage)
      else if startsWith "#" (trim sel) then Ok (sel, ct)
      else Err (Error idSelectorMessage)
  | _, _ => Err (Error requiredMessage)
  end.

(** !!document.querySelector(sel) on the page as it is at construction. *)
Definition probe (w : World) (sel : string) : result bool :=
  if selector_ok sel then
    Ok (match find w sel with Some _ => true | None => false end)
  else Err SyntaxError.

(** [embedClinicMap]: the instance is its environment and its state. *)
Definition embedClinicMap (p : Params) (w : World) : result (Env * State) :=
  match validate p with
  | Err e => Err e
  | Ok (sel, ct) =>
      let merged := mergedColors (colors p) in
      match probe w (titleSelector sel) with
      | Err e => Err e
      | Ok t =>
          match probe w (mapSelector sel) with
          | Err e => Err e
          | Ok mp =>
              match probe w (detailsSelector sel) with
              | Err e => Err e
              | Ok d =>
                  Ok ({| env_parentSelector := sel; env_clinicType := ct;
                         env_mainColor := fst merged; env_subColor := snd merged |},
                      {| titleSvg := EmptyString; mapSvg := EmptyString;
                         clinicDetails := JObj [];
                         isVisibleTitle := t; isVisibleMap := mp;
                         isVisibleDetailsAccordion := d |})
              end
          end
      end
  end.

(** *** isContentType *)

Definition isContentType (response : Response) (type : string) : bool :=
  match contentType response with
  | None => false
  | Some ct =>
      if negb (nonempty ct) then false
      else if String.eqb type "json" then includes "application/json" ct
      else if String.eqb type "text" then includes "text/plain" ct
      else if String.eqb type "xml" then
        includes "image/svg+xml" ct || includes "application/xml" ct
      else if String.eqb type "html" then includes "text/html" ct
      else false
  end.

(** *** The markup of a clinic and the style sheet *)

Definition iframeHtml (mapUrl : string) : string :=
  "<iframe src="
  ++ dq
  ++ mapUrl
  ++ dq
  ++ " width="
  ++ dq
  ++ "600"
  ++ dq
  ++ " height="
  ++ dq
  ++ "450"
  ++ dq
  ++ " style="
  ++ dq
  ++ "border:0;"
  ++ dq
  ++ " allowfullscreen="
  ++ dq
  ++ dq
  ++ " loading="
  ++ dq
  ++ "lazy"
  ++ dq
  ++ " referrerpolicy="
  ++ dq
  ++ "no-referrer-when-downgrade"
  ++ dq
  ++ " class="
  ++ dq
  ++ "cl-details-acd__list-sub-item-iframe"
  ++ dq
  ++ "></iframe>".

Definition shopHtml (name hours closed address stations iframe : string) : string :=
  "
        <div class="
  ++ dq
  ++ "cl-details-acd__list-sub-item"
  ++ dq
  ++ ">
          <div class="
  ++ dq
  ++ "cl-details-acd__list-sub-item-header"
  ++ dq
  ++ ">"
  ++ name
  ++ "</div>
          <table class="
  ++ dq
  ++ "cl-details-acd__list-sub-item-table"
  ++ dq
  ++ ">
            <tr>
              <th>診療時間</th>
              <td>"
  ++ hours
  ++ "</td>
            </tr>
            <tr>
              <th>休診日</th>
              <td>"
  ++ closed
  ++ "</td>
            </tr>
            <tr>
              <th>住所</th>
              <td>"
  ++ address
  ++ "</td>
            </tr>
            <tr>
              <th>最寄駅</th>
              <td>"
  ++ stations
  ++ "</td>
            </tr>
          </table>
          "
  ++ iframe
  ++ "
        </div>
      ".

Definition styles (parentSelector mainColor subColor : string) : string :=
  "
      /* SVG */
      "
  ++ parentSelector
  ++ " .cl-svg-title {
        stroke-width: 0;
      }
      "
  ++ parentSelector
  ++ " .cl-svg-title-em-text {
        fill: "
  ++ mainColor
  ++ "
      }
      "
  ++ parentSelector
  ++ " .cl-svg-map-area-line line {
        stroke: "
  ++ mainColor
  ++ "
      }
      "
  ++ parentSelector
  ++ " .cl-svg-map-main {
        fill: "
  ++ mainColor
  ++ "
      }
      "
  ++ parentSelector
  ++ " .cl-svg-map-area-name {
        fill: "
  ++ mainColor
  ++ "
      }
      /* 詳細アコーディオン */
      "
  ++ parentSelector
  ++ " .cl-details-acd__list {
        padding: 1.5rem;
      }
      "
  ++ parentSelector
  ++ " .cl-details-acd__list-item:not(:last-child) {
        margin-bottom: 1.5rem;
      }
      "
  ++ parentSelector
  ++ " .cl-details-acd__list-item-header {
        display: block;
        padding: 1.5rem 1.2rem;
        border-radius: 10px;
        position: relative;
        color: #111;
        text-align: center;
        font-size: 1.4rem;
      }
      /* アコーディオン色設定 */
      "
  ++ parentSelector
  ++ " .cl-details-acd__list-item-header {
        background-color: "
  ++ subColor
  ++ "
      }

      @media (hover: hover) {
        "
  ++ parentSelector
  ++ " .cl-details-acd__list-item-header:hover {
          opacity: 0.8;
          transition: opacity 0.2s;
        }
      }
      "
  ++ parentSelector
  ++ " .cl-details-acd__list-item-header::after {
        width: 1.3rem;
        height: 1.3rem;
        content: '';
        mask: url(data:image/svg+xml;base64,PD94bWwgdmVyc2lvbj0iMS4wIiBlbmNvZGluZz0iVVRGLTgiPz4gPHN2ZyBpZD0ibWRpLXBsdXMtbWludXMiIHhtbG5zPSJodHRwOi8vd3d3LnczLm9yZy8yMDAwL3N2ZyIgdmlld0JveD0iMCAwIDUwIDUwIj4gICA8cGF0aCBkPSJNMjEuNDQsMy42M3YxNy44MUgzLjYzdjcuMTJoMTcuODF2MTcuODFoNy4xMnYtMTcuODFoMTcuODF2LTcuMTJoLTE3LjgxVjMuNjNoLTcuMTIiLz4gPC9zdmc+) center / 100% auto no-repeat;
        background-color: #111;
        position: absolute;
        top: 50%;
        right: 3%;
        transform: translateY(-50%);
      }
      "
  ++ parentSelector
  ++ " .cl-details-acd__list-item-header input[type='checkbox'] {
        display: none;
      }
      "
  ++ parentSelector
  ++ " .cl-details-acd__list-item-body {
        height: 0;
        padding: 0 1rem;
        overflow: hidden;
        transition: padding 0.3s;
      }
      /* for when opened */
      "
  ++ parentSelector
  ++ " .cl-details-acd__list-item-header:has(input[type='checkbox']:checked) + .cl-details-acd__list-item-body {
        height: auto;
        padding: 1.5rem 1rem 0.5rem 1rem;
        transition: padding 0.3s;
      }
      "
  ++ parentSelector
  ++ " .cl-details-acd__list-item-header:has(input[type='checkbox']:checked)::after {
        mask: url(data:image/svg+xml;base64,PD94bWwgdmVyc2lvbj0iMS4wIiBlbmNvZGluZz0iVVRGLTgiPz4gPHN2ZyBpZD0ibWRpLXBsdXMtbWludXMiIHhtbG5zPSJodHRwOi8vd3d3LnczLm9yZy8yMDAwL3N2ZyIgdmlld0JveD0iMCAwIDUwIDUwIj4gICA8cmVjdCB4PSIzLjYzIiB5PSIyMS40NCIgd2lkdGg9IjQyLjc1IiBoZWlnaHQ9IjcuMTIiLz4gPC9zdmc+) center / 100% auto no-repeat;
      }
      /* / for when opened */
      "
  ++ parentSelector
  ++ " .cl-details-acd__list-sub-item {
        margin-bottom: 1.5em;
      }
      "
  ++ parentSelector
  ++ " .cl-details-acd__list-sub-item-header {
        padding: 1rem 0;
        margin-bottom: 1rem;
        border-top: 1px solid #222;
        border-bottom: 1px solid #222;
        text-align: center;
        font-size: 1.4rem;
      }
      "
  ++ parentSelector
  ++ " .cl-details-acd__list-sub-item-table {
        margin-bottom: 1rem;
        font-size: 1.2rem;
      }
      "
  ++ parentSelector
  ++ " .cl-details-acd__list-sub-item-table th,
      "
  ++ parentSelector
  ++ " .cl-details-acd__list-sub-item-table td {
        padding: 0.3rem 0;
        text-align: left;
        font-weight: normal;
        vertical-align: top;
        white-space: pre-line;
      }
      "
  ++ parentSelector
  ++ " .cl-details-acd__list-sub-item-table th {
        width: 20%;
      }
      "
  ++ parentSelector
  ++ " .cl-details-acd__list-sub-item-iframe {
        width: 100%;
        border: none;
      }
    ".

(** *** embedStyleTag *)

Definition embedStyleTag (env : Env) : M unit :=
  appendToHead
    (Element "style" []
       [Text (styles (env_parentSelector env) (env_mainColor env) (env_subColor env))]).

(** *** createClinicDetailsAccordion *)

Definition andThen {A B} (r : result A) (k : A -> result B) : result B :=
  match r with
  | Ok a => k a
  | Err e => Err e
  end.

Notation "'let*' x ':=' r 'in' k" := (andThen r (fun x => k))
  (at level 10, x name, r at level 100, k at level 200).

(** [items.forEach(f)] where every call of [f] adds one node: the nodes
    added, in order, or the first exception. *)
Fixpoint forEach {A} (f : A -> result node) (items : list A) : result (list node) :=
  match items with
  | [] => Ok []
  | x :: rest =>
      let* n := f x in
      let* ns := forEach f rest in
      Ok (n :: ns)
  end.

(** Lines 179 to 210: what one clinic adds to the body of its area. *)
Definition clinicEntry (clinic : jsval) : result node :=
  let* mapUrl := member clinic "mapUrl" in
  let* iframe :=
    (if truthy mapUrl then
       match mapUrl with
       | Some u => let* src := ToString u in Ok (iframeHtml src)
       | None => Ok EmptyString
       end
     else Ok EmptyString) in
  let* name := andThen (member clinic "name") orEmpty in
  let* hours := andThen (member clinic "hours") orEmpty in
  let* closed := andThen (member clinic "closed") orEmpty in
  let* address := andThen (member clinic "address") orEmpty in
  let* stations := andThen (member clinic "stations") orEmpty in
  Ok (Html (shopHtml name hours closed address stations iframe)).

(** The text of an area header, after its checkbox. *)
Definition areaLabel (area : string) : string :=
  "
            " ++ area ++ "エリア
          ".

(** Lines 164 to 175: the wrapper takes the template with the area text
    in it.  Only a [<] starts markup that can close or open an element:
    without one the text stays text in the label, and the body is the
    second child of the item. *)
Definition itemTemplate (area : string) : parsedItem :=
  if includes "<" area then item_markup area
  else
    BodyInside (fun entries =>
      Element "div" [("class", "cl-details-acd__list-item")]
        [Element "label" [("class", "cl-details-acd__list-item-header")]
           [Element "input" [("type", "checkbox")] []; Html (areaLabel area)];
         Element "div" [("class", "cl-details-acd__list-item-body")] entries]).

(** Lines 163 to 213: the item of one area.  [clinics] has to be an array:
    anything else has no callable [forEach].  The entries go to the
    body that [querySelector] found: without a body the first clinic
    throws, once its markup is made; the item that is appended to the
    list is the first element of the wrapper. *)
Definition areaItem (areaData : jsval) : result node :=
  let* area := andThen (member areaData "area") orEmpty in
  let* clinics := member areaData "clinics" in
  match clinics with
  | Some (JArr items) =>
      match itemTemplate area with
      | BodyInside item =>
          let* entries := forEach clinicEntry items in
          Ok (item entries)
      | BodyOutside item =>
          let* entries := forEach clinicEntry items in
          Ok item
      | BodyMissing item =>
          match items with
          | [] => Ok item
          | clinic :: _ => let* entry := clinicEntry clinic in Err TypeError
          end
      end
  | _ => Err TypeError
  end.

(** The accordion is built on detached nodes, from [state.clinicDetails]. *)
Definition createClinicDetailsAccordion (details : jsval) : result node :=
  match details with
  | JArr items =>
      let* areas := forEach areaItem items in
      Ok (Element "div" [("class", "cl-details-acd__list")] areas)
  | _ => Err TypeError
  end.

(** *** createContents *)

Definition renderTitle (env : Env) : M unit :=
  st <- get_state ;;
  if isVisibleTitle st && nonempty (titleSvg st) then
    titleEl <- querySelector (titleSelector (env_parentSelector env)) ;;
    if nonempty (titleSvg st) then
      match titleEl with
      | None => throw TypeError
      | Some el => replaceChildren el (SvgDocument (titleSvg st))
      end
    else ret tt
  else ret tt.

Definition renderMap (env : Env) : M unit :=
  st <- get_state ;;
  if isVisibleMap st && isVisibleMap st then
    mapEl <- querySelector (mapSelector (env_parentSelector env)) ;;
    if nonempty (mapSvg st) then
      match mapEl with
      | None => throw TypeError
      | Some el => replaceChildren el (SvgDocument (mapSvg st))
      end
    else ret tt
  else ret tt.

Definition renderDetails (env : Env) : M unit :=
  st <- get_state ;;
  if isVisibleDetailsAccordion st then
    some <- lift (hasItems (clinicDetails st)) ;;
    if (some : bool) then
      detailsAccordionElement <-
        querySelector (detailsSelector (env_parentSelector env)) ;;
      detailsAccordionDom <- lift (createClinicDetailsAccordion (clinicDetails st)) ;;
      match detailsAccordionElement with
      | None => throw TypeError
      | Some el => replaceChildren el detailsAccordionDom
      end
    else ret tt
  else ret tt.

Definition createContents (env : Env) : M unit :=
  renderTitle env ;; renderMap env ;; renderDetails env.

(** *** fetchData and fetchAllWithSetData *)

(** new URL(reference, import.meta.url): the module URL is fixed, a
    resource is named by its reference. *)
Definition titleUrl : string := "../images/title.svg".
Definition mapUrl (env : Env) : string :=
  "../images/" ++ env_clinicType env ++ "/map.svg".
Definition detailsUrl (env : Env) : string :=
  "../data/" ++ env_clinicType env ++ "/clinic-details.json".

(** [fetchData(url)] up to its await: the request leaves. *)
Definition fetchData_call (url : string) : M string :=
  emit (EvFetch url) ;; ret url.

(** The rest of [fetchData(url)], once the request has settled: the
    promise is fulfilled with the response, or with undefined. *)
Definition fetchData_settle (url : string) : M (option Response) :=
  try_catch
    (w <- get_world ;;
     match net w url with
     | Rejects e => throw e
     | Responds res =>
         if negb (ok res) then throw (HttpError (status res))
         else ret (Some res)
     end)
    (fun e => console_error e ;; ret None).

Definition request (flag : State -> bool) (url : string) : M (option string) :=
  st <- get_state ;;
  if flag st then p <- fetchData_call url ;; ret (Some p) else ret None.

Definition settled (p : option string) : M (option (string * Response)) :=
  match p with
  | None => ret None
  | Some url =>
      r <- fetchData_settle url ;;
      ret (match r with Some res => Some (url, res) | None => None end)
  end.

Definition withTitleSvg (v : string) (st : State) : State :=
  {| titleSvg := v; mapSvg := mapSvg st; clinicDetails := clinicDetails st;
     isVisibleTitle := isVisibleTitle st; isVisibleMap := isVisibleMap st;
     isVisibleDetailsAccordion := isVisibleDetailsAccordion st |}.

Definition withMapSvg (v : string) (st : State) : State :=
  {| titleSvg := titleSvg st; mapSvg := v; clinicDetails := clinicDetails st;
     isVisibleTitle := isVisibleTitle st; isVisibleMap := isVisibleMap st;
     isVisibleDetailsAccordion := isVisibleDetailsAccordion st |}.

Definition withClinicDetails (v : jsval) (st : State) : State :=
  {| titleSvg := titleSvg st; mapSvg := mapSvg st; clinicDetails := v;
     isVisibleTitle := isVisibleTitle st; isVisibleMap := isVisibleMap st;
     isVisibleDetailsAccordion := isVisibleDetailsAccordion st |}.

(** state.titleSvg = v, state.mapSvg = v, state.clinicDetails = v *)
Definition set_titleSvg (v : string) : M unit := set_state (withTitleSvg v).
Definition set_mapSvg (v : string) : M unit := set_state (withMapSvg v).
Definition set_clinicDetails (v : jsval) : M unit := set_state (withClinicDetails v).

(** await res.text() and await res.json() *)
Definition readText (url : string) (res : Response) : M string :=
  emit (EvText url) ;; lift (text res).

Definition readJson (url : string) (res : Response) : M jsval :=
  emit (EvJson url) ;; lift (json res).

Definition isSet {A} (p : option A) : bool :=
  match p with Some _ => true | None => false end.

(** The three requests leave in the order title, map, details; they are
    taken here to settle in that order too. *)
Definition fetchAllWithSetData (env : Env) : M unit :=
  title <- request isVisibleTitle titleUrl ;;
  map <- request isVisibleMap (mapUrl env) ;;
  details <- request isVisibleDetailsAccordion (detailsUrl env) ;;
  emit (EvConsoleLog (isSet title) (isSet map) (isSet details)) ;;
  resTitle <- settled title ;;
  resMap <- settled map ;;
  resDetails <- settled details ;;
  match resTitle with
  | Some (url, res) =>
      if isContentType res "xml" then v <- readText url res ;; set_titleSvg v
      else ret tt
  | None => ret tt
  end ;;
  match resMap with
  | Some (url, res) =>
      if isContentType res "xml" then v <- readText url res ;; set_mapSvg v
      else ret tt
  | None => ret tt
  end ;;
  match resDetails with
  | Some (url, res) =>
      if isContentType res "json" then v <- readJson url res ;; set_clinicDetails v
      else ret tt
  | None => ret tt
  end.

(** *** init

    The promise that [init] returns is fulfilled when the result is [Ok]
    and rejected when it is [Err]. *)
Definition init (env : Env) : M unit :=
  try_catch
    (fetchAllWithSetData env ;; createContents env ;; embedStyleTag env)
    (fun e => console_error e).

(** *** The three sections and what a run commits

    The definitions below name what the statements about [init] speak of;
    none of them is part of the script. *)

Inductive part : Type := Title | Map | Details.

Definition partUrl (env : Env) (p : part) : string :=
  match p with
  | Title => titleUrl
  | Map => mapUrl env
  | Details => detailsUrl env
  end.

(** The type that [fetchAllWithSetData] asks [isContentType] for. *)
Definition partType (p : part) : string :=
  match p with
  | Title => "xml"
  | Map => "xml"
  | Details => "json"
  end.

Definition partFlag (p : part) (st : State) : bool :=
  match p with
  | Title => isVisibleTitle st
  | Map => isVisibleMap st
  | Details => isVisibleDetailsAccordion st
  end.

Definition partSelector (env : Env) (p : part) : string :=
  match p with
  | Title => titleSelector (env_parentSelector env)
  | Map => mapSelector (env_parentSelector env)
  | Details => detailsSelector (env_parentSelector env)
  end.


(** The state that the factory makes. *)
Definition freshState (t mp d : bool) : State :=
  {| titleSvg := EmptyString; mapSvg := EmptyString; clinicDetails := JObj [];
     isVisibleTitle := t; isVisibleMap := mp; isVisibleDetailsAccordion := d |}.

(** The request for [url] ends with a response that passes both checks. *)
Definition available (w : World) (url type : string) : bool :=
  match net w url with
  | Rejects _ => false
  | Responds r => ok r && isContentType r type
  end.

(** The field of the state that belongs to a section is as the factory
    made it. *)
Definition partIdle (p : part) (st : State) : Prop :=
  match p with
  | Title => titleSvg st = EmptyString
  | Map => mapSvg st = EmptyString
  | Details => clinicDetails st = JObj []
  end.

(** The response that passes both checks, for a section that is asked for. *)
Definition payload (w : World) (flag : bool) (url type : string) : option Response :=
  if flag then
    match net w url with
    | Rejects _ => None
    | Responds r => if ok r && isContentType r type then Some r else None
    end
  else None.

Definition commitPart {A} (p : option Response) (read : Response -> result A)
    (set : A -> State -> State) (st : State) : result State :=
  match p with
  | None => Ok st
  | Some r =>
      match read r with
      | Ok v => Ok (set v st)
      | Err e => Err e
      end
  end.

(** The outcome of the three commits and the state they leave. *)
Definition commits (pT pM pD : option Response) (st : State) : result unit * State :=
  match commitPart pT text withTitleSvg st with
  | Err e => (Err e, st)
  | Ok st1 =>
      match commitPart pM text withMapSvg st1 with
      | Err e => (Err e, st1)
      | Ok st2 =>
          match commitPart pD json withClinicDetails st2 with
          | Err e => (Err e, st2)
          | Ok st3 => (Ok tt, st3)
          end
      end
  end.

(** What [fetchData] writes to the console when the request for a section
    that is asked for has settled. *)
Definition settleLog (w : World) (flag : bool) (url : string) : list event :=
  if flag then
    match net w url with
    | Rejects e => [EvConsoleError e]
    | Responds r => if ok r then [] else [EvConsoleError (HttpError (status r))]
    end
  else [].

(** The body reads: one for each response that passed, until one fails. *)
Definition readPart {A} (p : option Response) (read : Response -> result A)
    (ev : event) (rest : list event) : list event :=
  match p with
  | None => rest
  | Some r => ev :: match read r with Ok _ => rest | Err _ => [] end
  end.

Definition reads (env : Env) (pT pM pD : option Response) : list event :=
  readPart pT text (EvText titleUrl)
    (readPart pM text (EvText (mapUrl env))
       (readPart pD json (EvJson (detailsUrl env)) [])).

(** Everything that [fetchAllWithSetData] adds to the trace. *)
Definition fetchEvents (env : Env) (st : State) (w : World) : list event :=
  List.map EvFetch
    ((if isVisibleTitle st then [titleUrl] else []) ++
     (if isVisibleMap st then [mapUrl env] else []) ++
     (if isVisibleDetailsAccordion st then [detailsUrl env] else [])) ++
  [EvConsoleLog (isVisibleTitle st) (isVisibleMap st) (isVisibleDetailsAccordion st)] ++
  settleLog w (isVisibleTitle st) titleUrl ++
  settleLog w (isVisibleMap st) (mapUrl env) ++
  settleLog w (isVisibleDetailsAccordion st) (detailsUrl env) ++
  reads env
    (payload w (isVisibleTitle st) titleUrl "xml")
    (payload w (isVisibleMap st) (mapUrl env) "xml")
    (payload w (isVisibleDetailsAccordion st) (detailsUrl env) "json").

(** The URLs of the [fetch] calls of a trace, in order. *)
Fixpoint fetchesOf (evs : list event) : list string :=
  match evs with
  | [] => []
  | EvFetch url :: rest => url :: fetchesOf rest
  | _ :: rest => fetchesOf rest
  end.

Definition requested (env : Env) (st : State) : list string :=
  (if isVisibleTitle st then [titleUrl] else []) ++
  (if isVisibleMap st then [mapUrl env] else []) ++
  (if isVisibleDetailsAccordion st then [detailsUrl env] else []).

(** The element that [embedStyleTag] appends. *)
Definition styleElement (env : Env) : node :=
  Element "style" []
    [Text (styles (env_parentSelector env) (env_mainColor env) (env_subColor env))].

(** The root of an accordion: div.cl-details-acd__list. *)
Definition isAccordion (n : node) : bool :=
  match n with
  | Element tag [(k, v)] _ =>
      String.eqb tag "div" && String.eqb k "class" && String.eqb v "cl-details-acd__list"
  | _ => false
  end.

(** A section is drawn by [createContents] when its guards pass. *)
Definition drawn (p : part) (st : State) : bool :=
  match p with
  | Title => isVisibleTitle st && nonempty (titleSvg st)
  | Map => isVisibleMap st && nonempty (mapSvg st)
  | Details =>
      isVisibleDetailsAccordion st &&
      match hasItems (clinicDetails st) with
      | Ok b => b
      | Err _ => false
      end
  end.

(** What a section puts into its slot. *)
Definition partNode (p : part) (st : State) (n : node) : Prop :=
  match p with
  | Title => n = SvgDocument (titleSvg st)
  | Map => n = SvgDocument (mapSvg st)
  | Details => createClinicDetailsAccordion (clinicDetails st) = Ok n
  end.

(** A computation keeps a relation between the memory it starts from and
    the memory it leaves. *)
Definition keeps {A} (R : Mem -> Mem -> Prop) (c : M A) : Prop :=
  forall m, R m (snd (c m)).

(** The render steps change nothing but the children of the slots of the
    sections drawn. *)
Definition renders (env : Env) (m m' : Mem) : Prop :=
  state m' = state m /\
  find (world m') = find (world m) /\
  head (world m') = head (world m) /\
  net (world m') = net (world m) /\
  trace (world m') = trace (world m) /\
  forall el,
    childNodes (world m') el = childNodes (world m) el \/
    exists p n,
      drawn p (state m) = true /\
      find (world m) (partSelector env p) = Some el /\
      partNode p (state m) n /\
      childNodes (world m') el = [n].

(** The three payloads of a run, and the state after its commits. *)
Definition payloadOf (env : Env) (st : State) (w : World) (p : part) : option Response :=
  payload w (partFlag p st) (partUrl env p) (partType p).

Definition committed (env : Env) (m : Mem) : State :=
  snd (commits (payloadOf env (state m) (world m) Title)
         (payloadOf env (state m) (world m) Map)
         (payloadOf env (state m) (world m) Details) (state m)).

(** The memory after the catch clause of [init], and after [embedStyleTag]. *)
Definition logged (e : exn) (m : Mem) : Mem :=
  {| state := state m; world := addEvents [EvConsoleError e] (world m) |}.

Definition styled (env : Env) (m : Mem) : Mem :=
  {| state := state m; world := withHeadChild (styleElement env) (world m) |}.

Definition isJsonRead (ev : event) : bool :=
  match ev with
  | EvJson _ => true
  | _ => false
  end.

(** Two runs agree: same outcome, same document and network, same
    resources in the state.  The flags and the traces may differ. *)
Inductive agree : result unit * Mem -> result unit * Mem -> Prop :=
  | agree_intro r fd ch hd n ts ms cd f1 f2 f3 g1 g2 g3 t1 t2 :
      agree
        (r, {| state := {| titleSvg := ts; mapSvg := ms; clinicDetails := cd;
                           isVisibleTitle := f1; isVisibleMap := f2;
                           isVisibleDetailsAccordion := f3 |};
               world := {| find := fd; childNodes := ch; head := hd; net := n;
                           trace := t1 |} |})
        (r, {| state := {| titleSvg := ts; mapSvg := ms; clinicDetails := cd;
                           isVisibleTitle := g1; isVisibleMap := g2;
                           isVisibleDetailsAccordion := g3 |};
               world := {| find := fd; childNodes := ch; head := hd; net := n;
                           trace := t2 |} |}).

(** The fetch and render steps of [init] end without an exception. *)
Definition completes (env : Env) (m : Mem) : bool :=
  match (fetchAllWithSetData env ;; createContents env) m with
  | (Ok _, _) => true
  | (Err _, _) => false
  end.

End WithRuntime.

End Embedder.

(** ** The reporter: src/js/script2.js, [reactiveContent] *)

Module Reporter.

Local Open Scope Z_scope.

(** What the handlers read of the window: its inner size and the height
    of the [.page-wrap] element as laid out in it ([None] when jQuery finds
    no such element). *)
Record Page : Type := {
  innerWidth : Z;
  innerHeight : Z;
  pageWrapHeight : option Z
}.

(** A message posted to the parent frame, with target origin '*'. *)
Record Message : Type := {
  action : string;
  iframeHeight : option Z
}.

(** [lastWidth] and [timeout] are the variables of the closures; [timeout]
    holds the time at which the pending timer is due, if one is pending. *)
Record Reporter : Type := {
  lastWidth : Z;
  timeout : option Z;
  page : Page;
  posted : list Message
}.

Definition sendHeight (r : Reporter) : Reporter :=
  {| lastWidth := lastWidth r; timeout := timeout r; page := page r;
     posted := posted r ++
       [{| action := "sendIframeHeight"; iframeHeight := pageWrapHeight (page r) |}] |}.

(** The callback handed to [debounce] for the resize event. *)
Definition onResize (r : Reporter) : Reporter :=
  if negb (innerWidth (page r) =? lastWidth r) then
    sendHeight
      {| lastWidth := innerWidth (page r); timeout := timeout r; page := page r;
         posted := posted r |}
  else r.

(** A call of the function that [debounce(callback, delay)] returns, at
    time [now]: clearTimeout(timeout); timeout = setTimeout(..., delay). *)
Definition debounce (delay : Z) (now : Z) (r : Reporter) : Reporter :=
  {| lastWidth := lastWidth r; timeout := Some (now + delay); page := page r;
     posted := posted r |}.

(** The timer that is due by [now] runs its callback.  A timer runs as
    soon as it is due, and before an event of the same instant. *)
Definition runTimers (callback : Reporter -> Reporter) (now : Z) (r : Reporter) : Reporter :=
  match timeout r with
  | Some due =>
      if due <=? now then
        callback {| lastWidth := lastWidth r; timeout := None; page := page r;
                    posted := posted r |}
      else r
  | None => r
  end.

Inductive event : Type :=
  | Resize (p : Page)                   (* the window takes the size of [p] *)
  | ParentMessage (act : option string) (* e.originalEvent.data.action *)
  | HeaderClick (onHeader : bool)       (* $(e.target).is('.sec-map__list-item-header') *)
  | TransitionEnd (propertyName : string).

(** reactiveContent(): lastWidth is read, the first height is sent. *)
Definition reactiveContent (p : Page) : Reporter :=
  sendHeight {| lastWidth := innerWidth p; timeout := None; page := p; posted := [] |}.

Definition handle (now : Z) (ev : event) (r : Reporter) : Reporter :=
  match ev with
  | Resize p =>
      debounce 200 now
        {| lastWidth := lastWidth r; timeout := timeout r; page := p;
           posted := posted r |}
  | ParentMessage act =>
      match act with
      | Some a => if String.eqb a "getHeight" then sendHeight r else r
      | None => r
      end
  | HeaderClick onHeader => if onHeader then sendHeight r else r
  | TransitionEnd propertyName =>
      if String.eqb propertyName "padding-top" then sendHeight r else r
  end.

(** The event that arrives at time [now]. *)
Definition step (now : Z) (ev : event) (r : Reporter) : Reporter :=
  handle now ev (runTimers onResize now r).

(** A timeline of events, each with its time, then the clock runs to
    [finish]. *)
Fixpoint run (timeline : list (Z * event)) (finish : Z) (r : Reporter) : Reporter :=
  match timeline with
  | [] => runTimers onResize finish r
  | (t, ev) :: rest => run rest finish (step t ev r)
  end.

(** An item of a timeline that is a resize to a window of width [w]. *)
Definition widthKept (w : Z) (item : Z * event) : Prop :=
  exists p, snd item = Resize p /\ innerWidth p = w.

Definition report (p : Page) : Message :=
  {| action := "sendIframeHeight"; iframeHeight := pageWrapHeight p |}.

End Reporter.

(** ** The embedder, step by step

    Names for what the further statements about the embedder speak of:
    the three decisions of [createContents], [fetchData] as a whole, and
    data whose conversion to text cannot throw.  None of them changes the
    definitions above. *)

Module EmbedderSteps.
Import JsString Js Embedder.

Section WithRuntime.
Context {rt : Runtime}.

(** What a step of [createContents] decides: it throws, it skips its
    section, or it puts one node into one element. *)
Definition decision : Type := result (option (element * node)).

Definition titleStep (env : Env) (st : State) (fd : string -> option element) : decision :=
  if isVisibleTitle st && nonempty (titleSvg st) then
    if selector_ok (titleSelector (env_parentSelector env)) then
      match fd (titleSelector (env_parentSelector env)) with
      | Some el => Ok (Some (el, SvgDocument (titleSvg st)))
      | None => Err TypeError
      end
    else Err SyntaxError
  else Ok None.

Definition mapStep (env : Env) (st : State) (fd : string -> option element) : decision :=
  if isVisibleMap st then
    if selector_ok (mapSelector (env_parentSelector env)) then
      if nonempty (mapSvg st) then
        match fd (mapSelector (env_parentSelector env)) with
        | Some el => Ok (Some (el, SvgDocument (mapSvg st)))
        | None => Err TypeError
        end
      else Ok None
    else Err SyntaxError
  else Ok None.

Definition detailsStep (env : Env) (st : State) (fd : string -> option element) : decision :=
  if isVisibleDetailsAccordion st then
    match hasItems (clinicDetails st) with
    | Err e => Err e
    | Ok false => Ok None
    | Ok true =>
        if selector_ok (detailsSelector (env_parentSelector env)) then
          match createClinicDetailsAccordion (clinicDetails st) with
          | Err e => Err e
          | Ok dom =>
              match fd (detailsSelector (env_parentSelector env)) with
              | Some el => Ok (Some (el, dom))
              | None => Err TypeError
              end
          end
        else Err SyntaxError
    end
  else Ok None.

(** What a step does to the memory once it has decided. *)
Definition applyStep (d : decision) (m : Mem) : result unit * Mem :=
  match d with
  | Err e => (Err e, m)
  | Ok None => (Ok tt, m)
  | Ok (Some (el, n)) =>
      (Ok tt, {| state := state m; world := withChildren el [n] (world m) |})
  end.

(** The children of [el] after a step that did not throw. *)
Definition written (w : option (element * node)) (before : element -> list node)
    : element -> list node :=
  fun el =>
    match w with
    | Some (el', n) => if Nat.eqb el el' then [n] else before el
    | None => before el
    end.

(** The outcome of [createContents] and the children it leaves, from the
    state, from what the selectors find and from the children before. *)
Definition contents (env : Env) (st : State) (fd : string -> option element)
    (before : element -> list node) : result unit * (element -> list node) :=
  match titleStep env st fd with
  | Err e => (Err e, before)
  | Ok wT =>
      match mapStep env st fd with
      | Err e => (Err e, written wT before)
      | Ok wM =>
          match detailsStep env st fd with
          | Err e => (Err e, written wM (written wT before))
          | Ok wD => (Ok tt, written wD (written wM (written wT before)))
          end
      end
  end.

(** [fetchData(url)] from its call to its fulfilment. *)
Definition fetchData (url : string) : M (option Response) :=
  bind (fetchData_call url) fetchData_settle.

(** A property that is absent or null, a string or a boolean: its text is
    fixed by the language. *)
Definition plain (v : option jsval) : bool :=
  match v with
  | None => true
  | Some JNull => true
  | Some (JStr _) => true
  | Some (JBool _) => true
  | Some _ => false
  end.

(** The own property [k] of a value that is not null. *)
Definition field (v : jsval) (k : string) : option jsval :=
  match v with
  | JObj props => lookup k props
  | _ => None
  end.

(** A clinic, and an area, of which every property that is read is plain. *)
Definition plainClinic (clinic : jsval) : bool :=
  match clinic with
  | JNull => false
  | _ =>
      forallb (fun k => plain (field clinic k))
        ["mapUrl"; "name"; "hours"; "closed"; "address"; "stations"]
  end.

Definition plainArea (areaData : jsval) : bool :=
  match areaData with
  | JNull => false
  | _ =>
      plain (field areaData "area") &&
      match field areaData "clinics" with
      | Some (JArr clinics) => forallb plainClinic clinics
      | _ => false
      end
  end.

(** The text of the area holds no [<]: it is text, and nothing but text,
    in the header of its item. *)
Definition textArea (areaData : jsval) : bool :=
  match andThen (member areaData "area") orEmpty with
  | Ok area => negb (includes "<" area)
  | Err _ => false
  end.

(** [item] is the item of [areaData]: its header with the text of
    [areaData.area ?? ''], and one entry of markup for each of its
    clinics, in order. *)
Definition isAreaItem (areaData : jsval) (item : node) : Prop :=
  exists label clinics entries,
    andThen (member areaData "area") orEmpty = Ok label /\
    member areaData "clinics" = Ok (Some (JArr clinics)) /\
    item =
      Element "div" [("class", "cl-details-acd__list-item")]
        [Element "label" [("class", "cl-details-acd__list-item-header")]
           [Element "input" [("type", "checkbox")] []; Html (areaLabel label)];
         Element "div" [("class", "cl-details-acd__list-item-body")] entries] /\
    Forall2 (fun clinic entry => clinicEntry clinic = Ok entry) clinics entries.

(** The outcome of the commits of a run. *)
Definition commitOutcome (env : Env) (m : Mem) : result unit :=
  fst (commits (payloadOf env (state m) (world m) Title)
         (payloadOf env (state m) (world m) Map)
         (payloadOf env (state m) (world m) Details) (state m)).

End WithRuntime.

(** The field of [p] is in [st'] what it was in [st]. *)
Definition fieldKept (p : part) (st st' : State) : Prop :=
  match p with
  | Title => titleSvg st' = titleSvg st
  | Map => mapSvg st' = mapSvg st
  | Details => clinicDetails st' = clinicDetails st
  end.

(** The field of [p] in [st'] is the body of [r]. *)
Definition bodyOf (p : part) (r : Response) (st' : State) : Prop :=
  match p with
  | Title => text r = Ok (titleSvg st')
  | Map => text r = Ok (mapSvg st')
  | Details => json r = Ok (clinicDetails st')
  end.

(** Reading the body of [r] for [p] fails with [e]. *)
Definition readFails (p : part) (r : Response) (e : exn) : Prop :=
  match p with
  | Title => text r = Err e
  | Map => text r = Err e
  | Details => json r = Err e
  end.

End EmbedderSteps.

(** ** Timelines of the reporter *)

Module ReporterTimelines.
Import Reporter.
Local Open Scope Z_scope.

(** A burst of resize events: the times and the windows. *)
Definition resizes (items : list (Z * Page)) : list (Z * event) :=
  List.map (fun item => (fst item, Resize (snd item))) items.

(** Each event comes less than 200 ms after the one before it, and not
    before it. *)
Fixpoint closeTogether (t : Z) (items : list (Z * Page)) : Prop :=
  match items with
  | [] => True
  | item :: rest => t <= fst item < t + 200 /\ closeTogether (fst item) rest
  end.

(** The one kind of message that the reporter posts. *)
Definition isReport (m : Message) : Prop := action m = "sendIframeHeight"%string.

(** No timer is pending and the width last seen is the width of the
    window. *)
Definition caughtUp (r : Reporter) : Prop :=
  timeout r = None /\ innerWidth (page r) = lastWidth r.

(** [r'] has posted what [r] had, then further reports. *)
Definition grows (r r' : Reporter) : Prop :=
  exists extra, posted r' = posted r ++ extra /\ Forall isReport extra.

(** Before [horizon + 200] is reached: a pending timer is due by then, and
    without one the width last seen is the width of the window. *)
Definition settling (horizon : Z) (r : Reporter) : Prop :=
  match timeout r with
  | None => innerWidth (page r) = lastWidth r
  | Some due => due <= horizon + 200
  end.

End ReporterTimelines.

(** ** The style overrides: src/js/script2.js, [updateCss] *)

Module UpdateCss.

(** [0-9A-Fa-f] *)
Definition isHexDigit (c : ascii) : bool :=
  let n := nat_of_ascii c in
  (((48 <=? n) && (n <=? 57)) || ((65 <=? n) && (n <=? 70)) ||
   ((97 <=? n) && (n <=? 102)))%nat.

(** [0-9A-Fa-f]{n} at the start of [s]: what is left of [s], if it matches. *)
Fixpoint hexRun (n : nat) (s : string) : option string :=
  match n with
  | O => Some s
  | S n' =>
      match s with
      | String c rest => if isHexDigit c then hexRun n' rest else None
      | EmptyString => None
      end
  end.

(** The pattern between ^ and $: the run, then the end of the input. *)
Definition wholeRun (n : nat) (s : string) : bool :=
  match hexRun n s with
  | Some EmptyString => true
  | _ => false
  end.

(** /^([0-9A-Fa-f]{3}|[0-9A-Fa-f]{6})$/.test(colorCode) *)
Definition validateColorCode (colorCode : string) : bool :=
  wholeRun 3 colorCode || wholeRun 6 colorCode.

(** The query of the page, as URLSearchParams holds it: names and values,
    in order. *)
Definition Query : Type := list (string * string).

(** URLSearchParams.prototype.get: the first value of the name, or null. *)
Fixpoint get (name : string) (q : Query) : option string :=
  match q with
  | [] => None
  | (k, v) :: rest => if String.eqb k name then Some v else get name rest
  end.

Record QueryParams : Type := {
  mainColor : option string;
  subColor : option string;
  isHiddenHead : option string;
  isHiddenClinicList : option string
}.

Definition getQueryParamColorCode (q : Query) : QueryParams := {|
  mainColor := get "main-color" q;
  subColor := get "sub-color" q;
  isHiddenHead := get "hidden-head" q;
  isHiddenClinicList := get "hidden-clinic-list" q
|}.

(** $(selector).css(property, value) *)
Record CssCall : Type := {
  selector : string;
  property : string;
  value : string
}.

Definition equals (v : option string) (expected : string) : bool :=
  match v with
  | Some s => String.eqb s expected
  | None => false
  end.

(** mainColor && validateColorCode(mainColor) *)
Definition usable (v : option string) : option string :=
  match v with
  | Some s => if JsString.nonempty s && validateColorCode s then Some s else None
  | None => None
  end.

(** The calls of [css] that [updateCss] makes, in order. *)
Definition updateCss (q : Query) : list CssCall :=
  let p := getQueryParamColorCode q in
  (if equals (isHiddenHead p) "true"
   then [{| selector := "#sec-map__title"; property := "display"; value := "none" |}]
   else []) ++
  (if equals (isHiddenClinicList p) "false"
   then [{| selector := ".sec-map__list"; property := "display"; value := "block" |}]
   else []) ++
  match usable (mainColor p) with
  | Some c =>
      [{| selector := "#svg-title-atn-text"; property := "fill"; value := "#" ++ c |};
       {| selector := "#svg-area-bg [class^=" ++ JsString.dq ++ "st" ++ JsString.dq ++ "]";
          property := "stroke"; value := "#" ++ c |};
       {| selector := "#svg-map-bg"; property := "fill"; value := "#" ++ c |};
       {| selector := "#svg-area-name"; property := "fill"; value := "#" ++ c |}]
  | None => []
  end ++
  match usable (subColor p) with
  | Some c =>
      [{| selector := ".sec-map__list-item-header"; property := "background-color";
          value := "#" ++ c |}]
  | None => []
  end.

Definition allHex (s : string) : bool :=
  forallb isHexDigit (list_ascii_of_string s).

Definition isColorProperty (p : string) : bool :=
  String.eqb p "fill" || String.eqb p "stroke" || String.eqb p "background-color".

End UpdateCss.

(** ** Concrete pages, networks and configurations *)

Module Examples.
Import JsString Js Embedder.

(** An engine for the examples.  An ID selector needs a name after its
    [#], so a selector that starts with [#] and a space is malformed; no
    other malformed selector occurs below.  The examples convert no
    number, array or object and have no area with a [<] in its text, so
    the other four parts are never called. *)
Definition engine : Runtime := {|
  selector_ok := fun sel => negb (String.prefix "# " (trimStart sel));
  compound_to_string := fun _ => Ok "[object Object]";
  number_truthy := fun _ => true;
  gt_zero := fun _ => Ok false;
  item_markup := fun _ =>
    BodyMissing (Element "div" [("class", "cl-details-acd__list-item")] [])
|}.

Definition svgResponse (body : string) : Response := {|
  ok := true; status := 200; contentType := Some "image/svg+xml";
  text := Ok body; json := Err (Failure "Unexpected token <")
|}.

Definition jsonResponse (body : string) (value : jsval) : Response := {|
  ok := true; status := 200; contentType := Some "application/json";
  text := Ok body; json := Ok value
|}.

(** A body that is announced as JSON and is not. *)
Definition brokenJsonResponse : Response := {|
  ok := true; status := 200; contentType := Some "application/json";
  text := Ok "oops"; json := Err (Failure "Unexpected token o")
|}.

Definition notFoundResponse : Response := {|
  ok := false; status := 404; contentType := Some "text/html";
  text := Ok "Not Found"; json := Err (Failure "Unexpected token N")
|}.


(** A sequence of JSON texts (RFC 7464): another media type, whose name
    begins like the one of JSON, and whose body is no JSON. *)
Definition jsonSeqResponse : Response := {|
  ok := true; status := 200; contentType := Some "application/json-seq";
  text := Ok "..."; json := Err (Failure "Unexpected token")
|}.


(** The data of the spec: one area with one clinic. *)
Definition eastData : jsval :=
  JArr [JObj [("area", JStr "East");
              ("clinics",
               JArr [JObj [("name", JStr "Clinic A"); ("hours", JStr "9-5");
                           ("closed", JStr "Sun")]])]].

(** The markup of that clinic: no address, no stations, no iframe. *)
Definition eastEntry : string :=
  shopHtml "Clinic A" "9-5" "Sun" EmptyString EmptyString EmptyString.

Definition eastAccordion : node :=
  Element "div" [("class", "cl-details-acd__list")]
    [Element "div" [("class", "cl-details-acd__list-item")]
       [Element "label" [("class", "cl-details-acd__list-item-header")]
          [Element "input" [("type", "checkbox")] []; Html (areaLabel "East")];
        Element "div" [("class", "cl-details-acd__list-item-body")]
          [Html eastEntry]]].

(** An area without [clinics]. *)
Definition brokenData : jsval := JArr [JObj [("area", JStr "East")]].

(** A host page with markers under #clinic-list-1: element 1 for the
    title, 2 for the map, 3 for the details.  White space before a
    selector does not count. *)
Definition page (title map details : bool) (network : string -> fetch_outcome) : World := {|
  find := fun sel =>
    if String.eqb (trimStart sel) "#clinic-list-1 [data-cl-title]" then
      if title then Some 1 else None
    else if String.eqb (trimStart sel) "#clinic-list-1 [data-cl-map]" then
      if map then Some 2 else None
    else if String.eqb (trimStart sel) "#clinic-list-1 [data-cl-details-accordion]" then
      if details then Some 3 else None
    else None;
  childNodes := fun _ => [Text "loading"];
  head := [];
  net := network;
  trace := []
|}.

(** A network: what the title, the map and the details of juno answer. *)
Definition network (title map details : fetch_outcome) : string -> fetch_outcome :=
  fun url =>
    if String.eqb url "../images/title.svg" then title
    else if String.eqb url "../images/juno/map.svg" then map
    else if String.eqb url "../data/juno/clinic-details.json" then details
    else Rejects (Failure "Failed to fetch").

Definition offline : string -> fetch_outcome :=
  fun _ => Rejects (Failure "Failed to fetch").

Definition pink : Colors := {| mainColor := Some "#fd7ea5"; subColor := Some "#ffdee8" |}.

Definition juno : Params := {|
  parentSelector := Some "#clinic-list-1";
  clinicType := Some "juno";
  colors := Some pink
|}.

Definition junoEnv : Env := {|
  env_parentSelector := "#clinic-list-1";
  env_clinicType := "juno";
  env_mainColor := "#fd7ea5";
  env_subColor := "#ffdee8"
|}.

(** The configuration of the spec with an invalid color. *)
Definition zzz : Params := {|
  parentSelector := Some "#clinic-list-1";
  clinicType := Some "juno";
  colors := Some {| mainColor := Some "zzz"; subColor := None |}
|}.

Definition zzzEnv : Env := {|
  env_parentSelector := "#clinic-list-1";
  env_clinicType := "juno";
  env_mainColor := "zzz";
  env_subColor := "#fff"
|}.

(** A selector with a space before its [#]. *)
Definition padded : Params := {|
  parentSelector := Some " #clinic-list-1";
  clinicType := Some "juno";
  colors := None
|}.

(** All three sections answer, the details with a body that is not JSON. *)
Definition brokenDetails : World :=
  page true true true
    (network (Responds (svgResponse "<svg id='title'/>"))
             (Responds (svgResponse "<svg id='map'/>"))
             (Responds brokenJsonResponse)).


(** The details fail with 404, the other two answer. *)
Definition missingDetails : World :=
  page true true true
    (network (Responds (svgResponse "<svg id='title'/>"))
             (Responds (svgResponse "<svg id='map'/>"))
             (Responds notFoundResponse)).



(** Only the details marker is on the page. *)
Definition detailsOnly (details : fetch_outcome) : World :=
  page false false true
    (network (Rejects (Failure "Failed to fetch"))
             (Rejects (Failure "Failed to fetch")) details).

End Examples.

(** ** Concrete windows *)

Module ReporterExamples.
Import Reporter.
Local Open Scope Z_scope.

Definition wide : Page :=
  {| innerWidth := 800; innerHeight := 600; pageWrapHeight := Some 1000 |}.

(** The address bar of a phone goes: the height alone changes. *)
Definition taller : Page :=
  {| innerWidth := 800; innerHeight := 660; pageWrapHeight := Some 1000 |}.

Definition narrow : Page :=
  {| innerWidth := 500; innerHeight := 600; pageWrapHeight := Some 1500 |}.

Definition narrower : Page :=
  {| innerWidth := 400; innerHeight := 600; pageWrapHeight := Some 1800 |}.

End ReporterExamples.

(** ** Further pages, data and queries *)

Module MoreExamples.
Import JsString Js Embedder.

(** Two areas: one with two clinics, one with a clinic that has an
    address, stations and a map. *)
Definition twoAreas : list jsval :=
  [JObj [("area", JStr "East");
         ("clinics",
          JArr [JObj [("name", JStr "Clinic A"); ("hours", JStr "9-5");
                      ("closed", JStr "Sun")];
                JObj [("name", JStr "Clinic B"); ("hours", JNull);
                      ("closed", JBool false)]])];
   JObj [("area", JStr "West");
         ("clinics",
          JArr [JObj [("name", JStr "Clinic C"); ("hours", JStr "10-7");
                      ("closed", JStr "Wed"); ("address", JStr "1-2-3");
                      ("stations", JStr "Central");
                      ("mapUrl", JStr "https://maps.example/c")]])]].

(** All three sections answer, each with a body of its kind. *)
Definition allAnswer : World :=
  Examples.page true true true
    (Examples.network
       (Responds (Examples.svgResponse "<svg id='title'/>"))
       (Responds (Examples.svgResponse "<svg id='map'/>"))
       (Responds (Examples.jsonResponse "[...]" Examples.eastData))).

(** An instance whose details have been set to null. *)
Definition nullDetails : Mem := {|
  state :=
    {| titleSvg := EmptyString; mapSvg := EmptyString; clinicDetails := JNull;
       isVisibleTitle := false; isVisibleMap := false;
       isVisibleDetailsAccordion := true |};
  world := Examples.page true true true Examples.offline
|}.

End MoreExamples.

Module QueryExamples.
Import UpdateCss.

(** ?main-color=fd7ea5&sub-color=zzz&hidden-head=true *)
Definition pinkQuery : Query :=
  [("main-color", "fd7ea5"); ("sub-color", "zzz"); ("hidden-head", "true")].

End QueryExamples.

(** ** Facts about strings *)

Module StringFacts.
Import JsString.
Local Open Scope string_scope.

Lemma prefix_append s t : String.prefix s (s ++ t) = true.
Proof.
  induction s as [|c s IH]; cbn.
  - destruct t; reflexivity.
  - destruct (ascii_dec c c); [exact IH | congruence].
Qed.

Lemma includes_unfold needle hay :
  includes needle hay =
  String.prefix needle hay ||
  match hay with
  | EmptyString => false
  | String _ rest => includes needle rest
  end.
Proof. destruct hay; reflexivity. Qed.

Lemma includes_prefix needle hay :
  String.prefix needle hay = true -> includes needle hay = true.
Proof. intros H. rewrite includes_unfold, H. reflexivity. Qed.

Lemma includes_here needle rest : includes needle (needle ++ rest) = true.
Proof. apply includes_prefix, prefix_append. Qed.

Lemma includes_skip needle s t :
  includes needle t = true -> includes needle (s ++ t) = true.
Proof.
  intros H. induction s as [|c s IH]; [exact H|].
  rewrite includes_unfold. cbn [append]. rewrite IH. apply orb_true_r.
Qed.

(** A literal that ends with [key], followed by the value. *)
Lemma includes_after lit key value rest :
  lit = substring 0 (String.length lit - String.length key) lit ++ key ->
  includes (key ++ value) (lit ++ value ++ rest) = true.
Proof.
  intros ->.
  set (before := substring 0 _ _).
  replace ((before ++ key) ++ value ++ rest)
    with (before ++ (key ++ value) ++ rest).
  - apply includes_skip, includes_here.
  - clear. induction before as [|c b IH]; cbn.
    + induction key as [|k key IHk]; cbn; [reflexivity | now rewrite IHk].
    + now rewrite IH.
Qed.

Lemma trimStart_hash rest : trimStart (String "#" rest) = String "#" rest.
Proof.
  assert (H1 : ws1 "#" = false) by reflexivity.
  assert (H2 : forall b, ws2 "#" b = false) by reflexivity.
  assert (H3 : forall b d, ws3 "#" b d = false) by reflexivity.
  destruct rest as [|b [|d rest]]; cbn [trimStart]; rewrite ?H1, ?H2, ?H3;
    reflexivity.
Qed.

(** A selector that starts with [#] still does after [trim]. *)
Lemma trim_keeps_hash sel :
  startsWith "#" sel = true -> startsWith "#" (trim sel) = true.
Proof.
  unfold startsWith, trim. destruct sel as [|c rest]; [intros H; discriminate H|].
  cbn [prefix]. destruct (ascii_dec "#" c) as [<-|]; [intros _|discriminate].
  rewrite trimStart_hash. cbn [trimEnd]. rewrite trimStart_hash.
  cbn [nonempty prefix]. destruct (ascii_dec "#" "#"); [|congruence].
  destruct (trimEnd rest); reflexivity.
Qed.

(** In a text made of literals and values: skip up to the literal that
    ends with the key and is followed by the value. *)
Ltac find_value :=
  repeat match goal with
  | |- includes (?k ++ ?v) (?lit ++ (?v ++ ?rest)) = true =>
      first [ solve [apply (includes_after lit k v rest); vm_compute; reflexivity]
            | apply includes_skip ]
  | |- includes _ (_ ++ _) = true => apply includes_skip
  end.

End StringFacts.

(** ** Facts about the embedder *)

Module EmbedderFacts.
Import JsString Js Embedder StringFacts.

Arguments isContentType : simpl never.
Arguments styles : simpl never.
Arguments createClinicDetailsAccordion : simpl never.
Arguments hasItems : simpl never.
Arguments titleSelector : simpl never.
Arguments mapSelector : simpl never.
Arguments detailsSelector : simpl never.
Arguments titleUrl : simpl never.
Arguments mapUrl : simpl never.
Arguments detailsUrl : simpl never.

(** Unfolding of the computations of the fetch step and of the render step. *)
Ltac run_fetch :=
  unfold fetchAllWithSetData, request, settled, fetchData_settle, fetchData_call,
    readText, readJson, set_titleSvg, set_mapSvg, set_clinicDetails,
    console_error, emit, set_world, set_state, get_world, get_state, lift,
    try_catch, bind, ret, throw.

Ltac run_render :=
  unfold createContents, renderTitle, renderMap, renderDetails,
    querySelector, replaceChildren, set_world, get_state, lift, bind, ret, throw.

(** One case for each way a request can end: rejected, not ok, wrong
    content type, body unreadable, body read. *)
Ltac outcomes w url type read :=
  let r := fresh "r" in
  destruct (net w url) as [?e|r] eqn:?;
  [ | destruct (ok r) eqn:?;
      [ destruct (isContentType r type) eqn:?; [ destruct (read r) eqn:? | ] | ] ].

Ltac use_outcomes :=
  repeat (cbn;
          match goal with
          | H : net _ _ = _ |- _ => progress rewrite H
          | H : ok _ = _ |- _ => progress rewrite H
          | H : isContentType _ _ = _ |- _ => progress rewrite H
          | H : text _ = _ |- _ => progress rewrite H
          | H : json _ = _ |- _ => progress rewrite H
          end).


Section Facts.
Context {rt : Runtime}.

(** *** Relations kept by computations *)

Section Keeps.
Variable R : Mem -> Mem -> Prop.
Hypothesis R_refl : forall m, R m m.
Hypothesis R_trans : forall a b c, R a b -> R b c -> R a c.

Lemma keeps_ret A (a : A) : keeps R (ret a).
Proof. intro m. apply R_refl. Qed.

Lemma keeps_throw A e : keeps R (@throw A e).
Proof. intro m. apply R_refl. Qed.

Lemma keeps_bind A B (c : M A) (k : A -> M B) :
  keeps R c -> (forall a, keeps R (k a)) -> keeps R (bind c k).
Proof.
  intros Hc Hk m. unfold bind. specialize (Hc m).
  destruct (c m) as [[a|e] m']; cbn in *.
  - eapply R_trans; [exact Hc | apply Hk].
  - exact Hc.
Qed.

Lemma keeps_try_catch A (c : M A) (h : exn -> M A) :
  keeps R c -> (forall e, keeps R (h e)) -> keeps R (try_catch c h).
Proof.
  intros Hc Hh m. unfold try_catch. specialize (Hc m).
  destruct (c m) as [[a|e] m']; cbn in *.
  - exact Hc.
  - eapply R_trans; [exact Hc | apply Hh].
Qed.

End Keeps.

(** *** The factory *)

Lemma embedClinicMap_inv params w0 env st :
  embedClinicMap params w0 = Ok (env, st) ->
  exists t mp d,
    st = freshState t mp d /\
    validate params = Ok (env_parentSelector env, env_clinicType env) /\
    (env_mainColor env, env_subColor env) = mergedColors (colors params) /\
    probe w0 (titleSelector (env_parentSelector env)) = Ok t /\
    probe w0 (mapSelector (env_parentSelector env)) = Ok mp /\
    probe w0 (detailsSelector (env_parentSelector env)) = Ok d.
Proof.
  unfold embedClinicMap. intros H.
  destruct (validate params) as [[sel ct]|e]; [|discriminate].
  destruct (probe w0 (titleSelector sel)) as [t|] eqn:Ht; [|discriminate].
  destruct (probe w0 (mapSelector sel)) as [mp|] eqn:Hm; [|discriminate].
  destruct (probe w0 (detailsSelector sel)) as [d|] eqn:Hd; [|discriminate].
  inversion H; subst; clear H. cbn.
  exists t, mp, d. repeat split; auto.
  destruct (mergedColors (colors params)); reflexivity.
Qed.

Lemma probe_selector_ok w sel b : probe w sel = Ok b -> selector_ok sel = true.
Proof. unfold probe. destruct (selector_ok sel); [reflexivity | discriminate]. Qed.


(** A constructed instance has a fresh state and three selectors that the
    page accepts. *)
Lemma constructed_instance params w0 env st :
  embedClinicMap params w0 = Ok (env, st) ->
  (forall p, partIdle p st) /\ (forall p, selector_ok (partSelector env p) = true).
Proof.
  intros H. apply embedClinicMap_inv in H.
  destruct H as (t & mp & d & -> & _ & _ & Ht & Hm & Hd).
  split; intros []; cbn; eauto using probe_selector_ok.
Qed.

(** *** The fetch step, as the payloads it commits *)

Lemma fetchAll_spec env m :
  let st := state m in
  let w := world m in
  let pT := payload w (isVisibleTitle st) titleUrl "xml" in
  let pM := payload w (isVisibleMap st) (mapUrl env) "xml" in
  let pD := payload w (isVisibleDetailsAccordion st) (detailsUrl env) "json" in
  fetchAllWithSetData env m =
    (fst (commits pT pM pD st),
     {| state := snd (commits pT pM pD st);
        world := addEvents (fetchEvents env st w) w |}).
Proof.
  destruct m as [[ts ms cd t mp d] w]. cbn -[payload commits fetchEvents].
  unfold fetchEvents, reads, readPart, settleLog, payload, commits, commitPart.
  run_fetch. cbn.
  destruct t; [outcomes w titleUrl "xml" text | ].
  all: destruct mp; [outcomes w (mapUrl env) "xml" text | ].
  all: destruct d; [outcomes w (detailsUrl env) "json" json | ].
  all: use_outcomes; unfold addEvents; cbn; rewrite <- ?app_assoc; reflexivity.
Qed.

Lemma fetchAll_payloads env m :
  fetchAllWithSetData env m =
    (fst (commits (payloadOf env (state m) (world m) Title)
            (payloadOf env (state m) (world m) Map)
            (payloadOf env (state m) (world m) Details) (state m)),
     {| state := committed env m;
        world := addEvents (fetchEvents env (state m) (world m)) (world m) |}).
Proof. apply fetchAll_spec. Qed.

Lemma payload_unavailable w flag url type :
  available w url type = false -> payload w flag url type = None.
Proof.
  unfold available, payload. intros H. destruct flag; [|reflexivity].
  destruct (net w url) as [e|r]; [reflexivity|]. now rewrite H.
Qed.

Lemma payload_available w url type r :
  net w url = Responds r -> ok r = true -> isContentType r type = true ->
  payload w true url type = Some r.
Proof. unfold payload. intros -> -> ->. reflexivity. Qed.


(** *** What the commits leave *)

Lemma commits_title pM pD st :
  titleSvg (snd (commits None pM pD st)) = titleSvg st.
Proof.
  unfold commits, commitPart.
  destruct pM as [rM|]; [destruct (text rM)|];
    (destruct pD as [rD|]; [destruct (json rD)|]); reflexivity.
Qed.

Lemma commits_map pT pD st :
  mapSvg (snd (commits pT None pD st)) = mapSvg st.
Proof.
  unfold commits, commitPart.
  destruct pT as [rT|]; [destruct (text rT)|];
    (destruct pD as [rD|]; [destruct (json rD)|]); reflexivity.
Qed.

Lemma commits_details pT pM st :
  clinicDetails (snd (commits pT pM None st)) = clinicDetails st.
Proof.
  unfold commits, commitPart.
  destruct pT as [rT|]; [destruct (text rT)|];
    (destruct pM as [rM|]; [destruct (text rM)|]); reflexivity.
Qed.


Lemma committed_idle env m p :
  partIdle p (state m) ->
  payloadOf env (state m) (world m) p = None ->
  partIdle p (committed env m).
Proof.
  unfold committed. intros Hidle Hp. destruct p; cbn in *; rewrite Hp.
  - now rewrite commits_title.
  - now rewrite commits_map.
  - now rewrite commits_details.
Qed.

Lemma hasItems_empty : hasItems (JObj []) = Ok false.
Proof. reflexivity. Qed.

Lemma partIdle_not_drawn p st : partIdle p st -> drawn p st = false.
Proof.
  destruct p; cbn; intros ->; rewrite ?hasItems_empty; apply andb_false_r.
Qed.

(** *** The events of the fetch step *)

Lemma fetchesOf_app a b : fetchesOf (a ++ b) = fetchesOf a ++ fetchesOf b.
Proof.
  induction a as [|ev a IH]; [reflexivity|].
  destruct ev; cbn; rewrite IH; reflexivity.
Qed.


Lemma fetchesOf_settleLog w flag url : fetchesOf (settleLog w flag url) = [].
Proof.
  unfold settleLog. destruct flag; [|reflexivity].
  destruct (net w url) as [e|r]; [reflexivity|]. destruct (ok r); reflexivity.
Qed.

Lemma fetchesOf_reads env pT pM pD : fetchesOf (reads env pT pM pD) = [].
Proof.
  unfold reads, readPart.
  destruct pT as [rT|]; [destruct (text rT)|];
    (destruct pM as [rM|]; [destruct (text rM)|]);
    (destruct pD as [rD|]; [destruct (json rD)|]); reflexivity.
Qed.


Lemma reads_no_json env pT pM :
  forallb (fun ev => negb (isJsonRead ev)) (reads env pT pM None) = true.
Proof.
  unfold reads, readPart.
  destruct pT as [rT|]; [destruct (text rT)|];
    (destruct pM as [rM|]; [destruct (text rM)|]); reflexivity.
Qed.

Lemma settleLog_no_json w flag url :
  forallb (fun ev => negb (isJsonRead ev)) (settleLog w flag url) = true.
Proof.
  unfold settleLog. destruct flag; [|reflexivity].
  destruct (net w url) as [e|r]; [reflexivity|]. destruct (ok r); reflexivity.
Qed.

Lemma fetchEvents_no_json env st w :
  payload w (isVisibleDetailsAccordion st) (detailsUrl env) "json" = None ->
  forallb (fun ev => negb (isJsonRead ev)) (fetchEvents env st w) = true.
Proof.
  intros HpD. unfold fetchEvents. rewrite HpD.
  rewrite !forallb_app, !settleLog_no_json, reads_no_json.
  destruct (isVisibleTitle st), (isVisibleMap st), (isVisibleDetailsAccordion st);
    reflexivity.
Qed.



(** *** The render step *)

Lemma renders_refl env m : renders env m m.
Proof. repeat split; auto. Qed.

Lemma renders_trans env a b c :
  renders env a b -> renders env b c -> renders env a c.
Proof.
  intros (Hs1 & Hf1 & Hh1 & Hn1 & Ht1 & Hc1) (Hs2 & Hf2 & Hh2 & Hn2 & Ht2 & Hc2).
  repeat split; try congruence.
  intros el. destruct (Hc2 el) as [Heq | (p & n & Hd & Hfind & Hnode & Hch)].
  - rewrite Heq. apply Hc1.
  - right. exists p, n. rewrite Hs1, Hf1 in *. auto.
Qed.

Lemma renders_replace env m p el n :
  drawn p (state m) = true ->
  find (world m) (partSelector env p) = Some el ->
  partNode p (state m) n ->
  renders env m (snd (replaceChildren el n m)).
Proof.
  intros Hd Hf Hn. repeat split; auto.
  intros x. cbn. destruct (Nat.eqb_spec x el) as [->|Hne].
  - right. exists p, n. auto.
  - left. reflexivity.
Qed.

Lemma renderTitle_renders env : keeps (renders env) (renderTitle env).
Proof.
  intros m. run_render. cbn.
  destruct (isVisibleTitle (state m)) eqn:Hflag; cbn; [|apply renders_refl].
  destruct (nonempty (titleSvg (state m))) eqn:Hsvg; cbn; [|apply renders_refl].
  destruct (selector_ok _); cbn; [|apply renders_refl].
  destruct (find (world m) _) as [el|] eqn:Hfind; cbn; [|apply renders_refl].
  apply (renders_replace env m Title el); cbn; auto.
  rewrite Hflag, Hsvg. reflexivity.
Qed.

Lemma renderMap_renders env : keeps (renders env) (renderMap env).
Proof.
  intros m. run_render. cbn.
  destruct (isVisibleMap (state m)) eqn:Hflag; cbn; [|apply renders_refl].
  destruct (selector_ok _); cbn; [|apply renders_refl].
  destruct (nonempty (mapSvg (state m))) eqn:Hsvg; cbn; [|apply renders_refl].
  destruct (find (world m) _) as [el|] eqn:Hfind; cbn; [|apply renders_refl].
  apply (renders_replace env m Map el); cbn; auto.
  rewrite Hflag, Hsvg. reflexivity.
Qed.

Lemma renderDetails_renders env : keeps (renders env) (renderDetails env).
Proof.
  intros m. run_render. cbn.
  destruct (isVisibleDetailsAccordion (state m)) eqn:Hflag; cbn; [|apply renders_refl].
  destruct (hasItems (clinicDetails (state m))) as [[|]|] eqn:Hitems; cbn;
    try apply renders_refl.
  destruct (selector_ok _); cbn; [|apply renders_refl].
  destruct (createClinicDetailsAccordion _) as [dom|] eqn:Hdom; cbn;
    [|apply renders_refl].
  destruct (find (world m) _) as [el|] eqn:Hfind; cbn; [|apply renders_refl].
  apply (renders_replace env m Details el); cbn; auto.
  rewrite Hflag, Hitems. reflexivity.
Qed.

Lemma createContents_renders env : keeps (renders env) (createContents env).
Proof.
  unfold createContents.
  apply (keeps_bind _ (renders_trans env)); [apply renderTitle_renders | intros _].
  apply (keeps_bind _ (renders_trans env)); [apply renderMap_renders | intros _].
  apply renderDetails_renders.
Qed.


(** *** init *)

Lemma init_run env m :
  init env m =
  match fetchAllWithSetData env m with
  | (Err e, m1) => (Ok tt, logged e m1)
  | (Ok _, m1) =>
      match createContents env m1 with
      | (Err e, m2) => (Ok tt, logged e m2)
      | (Ok _, m2) => (Ok tt, styled env m2)
      end
  end.
Proof.
  unfold init, try_catch, bind.
  destruct (fetchAllWithSetData env m) as [[[]|e] m1]; [|reflexivity].
  destruct (createContents env m1) as [[[]|e] m2]; reflexivity.
Qed.

Lemma init_fulfils env m : fst (init env m) = Ok tt.
Proof.
  rewrite init_run.
  destruct (fetchAllWithSetData env m) as [[[]|e] m1]; [|reflexivity].
  destruct (createContents env m1) as [[[]|e] m2]; reflexivity.
Qed.

Lemma completes_run env m :
  completes env m =
  match fetchAllWithSetData env m with
  | (Err _, _) => false
  | (Ok _, m1) =>
      match createContents env m1 with
      | (Err _, _) => false
      | (Ok _, _) => true
      end
  end.
Proof.
  unfold completes, bind.
  destruct (fetchAllWithSetData env m) as [[[]|e] m1]; [|reflexivity].
  destruct (createContents env m1) as [[[]|e] m2]; reflexivity.
Qed.

Lemma init_head env m :
  head (world (snd (init env m))) =
  head (world m) ++ (if completes env m then [styleElement env] else []).
Proof.
  rewrite init_run, completes_run, fetchAll_payloads.
  set (m1 := {| state := _; world := _ |}).
  destruct (fst (commits _ _ _ _)) as [[]|e]; cbn; [|now rewrite app_nil_r].
  pose proof (createContents_renders env m1) as (_ & _ & Hhead & _).
  destruct (createContents env m1) as [[[]|e] m2]; cbn in *; rewrite Hhead.
  - reflexivity.
  - now rewrite app_nil_r.
Qed.

Lemma init_spec env m :
  let m' := snd (init env m) in
  state m' = committed env m /\
  find (world m') = find (world m) /\
  net (world m') = net (world m) /\
  (exists tail,
     trace (world m') =
       trace (world m) ++ fetchEvents env (state m) (world m) ++ tail /\
     (tail = [] \/ exists e, tail = [EvConsoleError e])) /\
  (forall el,
     childNodes (world m') el = childNodes (world m) el \/
     exists p n,
       drawn p (committed env m) = true /\
       find (world m) (partSelector env p) = Some el /\
       partNode p (committed env m) n /\
       childNodes (world m') el = [n]).
Proof.
  cbn zeta. rewrite init_run, fetchAll_payloads.
  set (m1 := {| state := committed env m; world := _ |}).
  destruct (fst (commits _ _ _ _)) as [[]|e]; cbn [fst snd].
  - destruct (createContents_renders env m1) as (Hs & Hf & Hh & Hn & Ht & Hc).
    destruct (createContents env m1) as [[[]|e] m2]; cbn [fst snd] in *.
    + repeat split; auto. exists []. rewrite app_nil_r. cbn. rewrite Ht. auto.
    + repeat split; auto. exists [EvConsoleError e]. cbn. rewrite Ht. cbn.
      rewrite <- app_assoc. eauto.
  - repeat split; auto. exists [EvConsoleError e]. cbn.
    rewrite <- app_assoc. eauto.
Qed.



End Facts.

(** *** Construction *)

(** What [validate] answers, case by case. *)
Lemma validate_cases (p : Params) :
  match parentSelector p, clinicType p with
  | Some sel, Some ct =>
      if nonempty sel && nonempty ct then
        if startsWith "#" (trim sel) then validate p = Ok (sel, ct)
        else validate p = Err (Error idSelectorMessage)
      else validate p = Err (Error requiredMessage)
  | _, _ => validate p = Err (Error requiredMessage)
  end.
Proof.
  unfold validate.
  destruct (parentSelector p) as [sel|], (clinicType p) as [ct|]; try reflexivity.
  destruct (nonempty sel), (nonempty ct); cbn; try reflexivity.
  destruct (startsWith "#" (trim sel)); reflexivity.
Qed.

(** C4, as amended.  The factory throws the error of a missing argument
    when [parentSelector] or [clinicType] is absent or empty, and the
    error of a selector that is not an ID selector when [parentSelector],
    with the white space around it trimmed, does not start with [#]; it
    returns no instance then.  With both arguments non-empty and a trimmed
    selector that starts with [#], it returns an instance, provided the
    page accepts the three marker selectors; a selector that starts with
    [#] before trimming is one of these. *)
Theorem C4_construction_checks_arguments {rt : Runtime} (p : Params) (w : World) :
  ((parentSelector p = None \/ parentSelector p = Some EmptyString \/
    clinicType p = None \/ clinicType p = Some EmptyString) ->
   embedClinicMap p w = Err (Error requiredMessage)) /\
  (forall sel ct,
     parentSelector p = Some sel -> clinicType p = Some ct ->
     nonempty sel = true -> nonempty ct = true ->
     startsWith "#" (trim sel) = false ->
     embedClinicMap p w = Err (Error idSelectorMessage)) /\
  (forall sel ct,
     parentSelector p = Some sel -> clinicType p = Some ct ->
     nonempty sel = true -> nonempty ct = true ->
     startsWith "#" (trim sel) = true ->
     selector_ok (titleSelector sel) = true ->
     selector_ok (mapSelector sel) = true ->
     selector_ok (detailsSelector sel) = true ->
     exists env st,
       embedClinicMap p w = Ok (env, st) /\
       env_parentSelector env = sel /\ env_clinicType env = ct) /\
  (forall sel, startsWith "#" sel = true -> startsWith "#" (trim sel) = true).
Proof.
  pose proof (validate_cases p) as Hv.
  split; [|split; [|split]].
  - intros H. unfold embedClinicMap.
    destruct (parentSelector p) as [sel|], (clinicType p) as [ct|];
      try (rewrite Hv; reflexivity).
    assert (Hempty : nonempty sel && nonempty ct = false).
    { destruct H as [H|[H|[H|H]]]; try discriminate; inversion H; subst;
        cbn; auto using andb_false_r. }
    rewrite Hempty in Hv. rewrite Hv. reflexivity.
  - intros sel ct Hsel Hct Hs Hc Hhash. unfold embedClinicMap.
    rewrite Hsel, Hct, Hs, Hc, Hhash in Hv. cbn in Hv. rewrite Hv. reflexivity.
  - intros sel ct Hsel Hct Hs Hc Hhash Ht Hm Hd. unfold embedClinicMap, probe.
    rewrite Hsel, Hct, Hs, Hc, Hhash in Hv. cbn in Hv.
    rewrite Hv, Ht, Hm, Hd. eexists. eexists. split; [reflexivity|]. split; reflexivity.
  - apply trim_keeps_hash.
Qed.

(** The configuration of the demo page is accepted. *)
Lemma C4_witness :
  exists env st,
    @embedClinicMap Examples.engine Examples.juno
      (Examples.page true true true Examples.offline) = Ok (env, st) /\
    env_parentSelector env = "#clinic-list-1" /\ env_clinicType env = "juno".
Proof.
  apply (proj1 (proj2 (proj2
    (@C4_construction_checks_arguments Examples.engine Examples.juno
       (Examples.page true true true Examples.offline)))));
    reflexivity.
Defined.

(** C4 as it was stated fails three ways: a selector with a space before
    its [#] does not start with [#] and is accepted; a [clinicType] that
    is present and empty is refused; the selector [#] starts with [#] and
    construction fails, with the syntax error of [querySelector]. *)
Lemma C4_counterexample :
  (startsWith "#" " #clinic-list-1" = false /\
   @embedClinicMap Examples.engine Examples.padded
     (Examples.page true true true Examples.offline) =
   Ok ({| env_parentSelector := " #clinic-list-1"; env_clinicType := "juno";
          env_mainColor := "#000"; env_subColor := "#fff" |},
       freshState true true true)) /\
  @embedClinicMap Examples.engine
    {| parentSelector := Some "#clinic-list-1"; clinicType := Some EmptyString;
       colors := None |}
    (Examples.page true true true Examples.offline) = Err (Error requiredMessage) /\
  (startsWith "#" "#" = true /\
   @embedClinicMap Examples.engine
     {| parentSelector := Some "#"; clinicType := Some "juno"; colors := None |}
     (Examples.page true true true Examples.offline) = Err SyntaxError).
Proof. repeat split; reflexivity. Qed.

(** *** Colors *)

Lemma mergedColors_cases (c : option Colors) :
  fst (mergedColors c) =
    match c with
    | Some {| mainColor := Some v |} => v
    | _ => "#000"
    end /\
  snd (mergedColors c) =
    match c with
    | Some {| subColor := Some v |} => v
    | _ => "#fff"
    end.
Proof. destruct c as [[[m|] [s|]]|]; split; reflexivity. Qed.

(** The colors are written into the style sheet as they are. *)
Lemma styles_colors sel main sub :
  includes ("fill: " ++ main) (styles sel main sub) = true /\
  includes ("stroke: " ++ main) (styles sel main sub) = true /\
  includes ("background-color: " ++ sub) (styles sel main sub) = true.
Proof.
  unfold styles. repeat split; find_value.
Qed.

(** The outcome of the factory does not depend on the colors. *)
Lemma embedClinicMap_any_colors {rt : Runtime} sel ct c c' w env st :
  embedClinicMap {| parentSelector := sel; clinicType := ct; colors := c |} w
    = Ok (env, st) ->
  embedClinicMap {| parentSelector := sel; clinicType := ct; colors := c' |} w
    = Ok ({| env_parentSelector := env_parentSelector env;
             env_clinicType := env_clinicType env;
             env_mainColor := fst (mergedColors c');
             env_subColor := snd (mergedColors c') |}, st).
Proof.
  unfold embedClinicMap, validate. cbn.
  destruct sel as [sel|], ct as [ct|]; try discriminate.
  destruct (negb (nonempty sel) || negb (nonempty ct)); [discriminate|].
  destruct (startsWith "#" (trim sel)); [|discriminate].
  destruct (probe w (titleSelector sel)); [|discriminate].
  destruct (probe w (mapSelector sel)); [|discriminate].
  destruct (probe w (detailsSelector sel)); [|discriminate].
  intros H. inversion H; subst. reflexivity.
Qed.

(** C2, as amended.  The factory does not look at the colors: whatever
    they are, construction does not throw on their account, a color that
    is given is kept as it is given, and a color that is left out is the
    default, [#000] for the main color and [#fff] for the sub color.  The
    style sheet that [embedStyleTag] appends is the template with these
    two texts written into it, after [fill:] and [stroke:] for the main
    color and after [background-color:] for the sub color. *)
Theorem C2_colors_are_not_validated {rt : Runtime}
    (p : Params) (w : World) (env : Env) (st : State) :
  embedClinicMap p w = Ok (env, st) ->
  env_mainColor env =
    match colors p with
    | Some {| mainColor := Some v |} => v
    | _ => "#000"
    end /\
  env_subColor env =
    match colors p with
    | Some {| subColor := Some v |} => v
    | _ => "#fff"
    end /\
  (forall c', exists env',
     embedClinicMap
       {| parentSelector := parentSelector p; clinicType := clinicType p;
          colors := c' |} w = Ok (env', st)) /\
  (forall m,
     head (world (snd (embedStyleTag env m))) =
     head (world m) ++
     [Element "style" []
        [Text (styles (env_parentSelector env) (env_mainColor env)
                 (env_subColor env))]]) /\
  includes ("fill: " ++ env_mainColor env)
    (styles (env_parentSelector env) (env_mainColor env) (env_subColor env)) = true /\
  includes ("background-color: " ++ env_subColor env)
    (styles (env_parentSelector env) (env_mainColor env) (env_subColor env)) = true.
Proof.
  intros H.
  pose proof (embedClinicMap_inv _ _ _ _ H) as (t & mp & d & _ & _ & Hc & _).
  pose proof (mergedColors_cases (colors p)) as [Hm Hs].
  rewrite <- Hc in Hm, Hs. cbn [fst snd] in Hm, Hs.
  destruct (styles_colors (env_parentSelector env) (env_mainColor env)
              (env_subColor env)) as (Hfill & _ & Hback).
  split; [exact Hm|]. split; [exact Hs|]. split; [|split; [|split]].
  - intros c'. destruct p as [sel ct c]. cbn [parentSelector clinicType].
    eexists. apply (embedClinicMap_any_colors sel ct c c' w env st H).
  - intros m. reflexivity.
  - exact Hfill.
  - exact Hback.
Qed.

(** The invalid color of the spec is accepted and written out. *)
Lemma C2_witness :
  env_mainColor Examples.zzzEnv = "zzz" /\
  env_subColor Examples.zzzEnv = "#fff" /\
  includes "fill: zzz" (styles "#clinic-list-1" "zzz" "#fff") = true.
Proof.
  pose proof (@C2_colors_are_not_validated Examples.engine Examples.zzz
                (Examples.page true true true Examples.offline)
                Examples.zzzEnv (freshState true true true) eq_refl)
    as (Hmain & Hsub & _ & _ & Hfill & _).
  exact (conj Hmain (conj Hsub Hfill)).
Defined.

(** C2 as it was stated fails: the main color [zzz] is no hexadecimal
    color, and the style sheet that [init] appends has [fill: zzz] in it
    and not the default [fill: #000]. *)
Lemma C2_counterexample :
  @embedClinicMap Examples.engine Examples.zzz
    (Examples.page true true true Examples.offline) =
  Ok (Examples.zzzEnv, freshState true true true) /\
  head (world (snd (@init Examples.engine Examples.zzzEnv
                      {| state := freshState true true true;
                         world := Examples.page true true true Examples.offline |}))) =
  [Element "style" [] [Text (styles "#clinic-list-1" "zzz" "#fff")]] /\
  includes "fill: zzz" (styles "#clinic-list-1" "zzz" "#fff") = true /\
  includes "fill: #000" (styles "#clinic-list-1" "zzz" "#fff") = false.
Proof. repeat split; vm_compute; reflexivity. Qed.

(** *** The requests *)




(** *** The details that are not committed *)

Lemma unavailable_cases w url type r :
  net w url = Responds r ->
  ok r = false \/ isContentType r type = false ->
  available w url type = false.
Proof.
  unfold available. intros -> [->| ->]; [reflexivity | apply andb_false_r].
Qed.

Lemma svg_is_no_accordion source : isAccordion (SvgDocument source) = false.
Proof. reflexivity. Qed.

(** C5, as amended.  On a constructed instance, when the request for
    the details is answered with a status that is not a success, or with
    a content type that [isContentType] does not take for JSON (one that
    does not contain [application/json]), the promise of [init] is
    fulfilled, no body is read as JSON, [clinicDetails] is still the empty
    object of the factory, and no accordion is put anywhere on the page. *)
Theorem C5_failed_details_are_not_drawn {rt : Runtime}
    (params : Params) (w0 : World) (env : Env) (st : State) (w : World)
    (r : Response) :
  embedClinicMap params w0 = Ok (env, st) ->
  net w (detailsUrl env) = Responds r ->
  ok r = false \/ isContentType r "json" = false ->
  let run := init env {| state := st; world := w |} in
  fst run = Ok tt /\
  (forall url, In (EvJson url) (trace (world (snd run))) -> In (EvJson url) (trace w)) /\
  clinicDetails (state (snd run)) = JObj [] /\
  (forall el n,
     In n (childNodes (world (snd run)) el) -> isAccordion n = true ->
     In n (childNodes w el)).
Proof.
  intros H Hnet Hbad. cbn zeta.
  destruct (constructed_instance _ _ _ _ H) as [Hidle _].
  assert (Hav : available w (detailsUrl env) "json" = false)
    by (eapply unavailable_cases; eassumption).
  set (m := {| state := st; world := w |}).
  assert (Hnone : payloadOf env (state m) (world m) Details = None)
    by (apply payload_unavailable; exact Hav).
  pose proof (committed_idle env m Details (Hidle Details) Hnone) as Hkept.
  destruct (init_spec env m) as (Hstate & _ & _ & (tail & Htrace & Htail) & Hch).
  split; [apply init_fulfils|]. split; [|split].
  - intros url Hin. rewrite Htrace in Hin.
    apply in_app_or in Hin. destruct Hin as [Hin|Hin]; [exact Hin|exfalso].
    apply in_app_or in Hin. destruct Hin as [Hin|Hin].
    + pose proof (fetchEvents_no_json env (state m) (world m) Hnone) as Hno.
      rewrite forallb_forall in Hno. specialize (Hno _ Hin). discriminate Hno.
    + destruct Htail as [->|[e ->]]; [destruct Hin|].
      destruct Hin as [Hin|[]]. discriminate Hin.
  - rewrite Hstate. exact Hkept.
  - intros el n Hin Hacc.
    destruct (Hch el) as [Heq|(p & n' & Hdrawn & _ & Hnode & Heq)].
    + rewrite Heq in Hin. exact Hin.
    + exfalso. rewrite Heq in Hin. destruct Hin as [<-|[]].
      destruct p; cbn in Hnode.
      * subst n'. discriminate Hacc.
      * subst n'. discriminate Hacc.
      * rewrite (partIdle_not_drawn Details _ Hkept) in Hdrawn. discriminate.
Qed.

(** The details answer 404: nothing is read as JSON, the details slot
    keeps what it had. *)
Lemma C5_witness :
  let run :=
    @init Examples.engine Examples.junoEnv
      {| state := freshState true true true; world := Examples.missingDetails |} in
  fst run = Ok tt /\
  (forall url, In (EvJson url) (trace (world (snd run))) -> False) /\
  clinicDetails (state (snd run)) = JObj [] /\
  childNodes (world (snd run)) 3 = [Text "loading"].
Proof.
  pose proof (@C5_failed_details_are_not_drawn Examples.engine Examples.juno
                (Examples.page true true true Examples.offline) Examples.junoEnv
                (freshState true true true) Examples.missingDetails
                Examples.notFoundResponse eq_refl eq_refl (or_introl eq_refl))
    as (Hok & Hjson & Hkept & _).
  split; [exact Hok|]. split; [exact Hjson|]. split; [exact Hkept|].
  vm_compute. reflexivity.
Defined.

(** C5 as it was stated fails: [application/json-seq] is a content type
    other than [application/json], it contains that text, and the body
    of the details is read as JSON. *)
Lemma C5_counterexample :
  contentType Examples.jsonSeqResponse <> Some "application/json"%string /\
  isContentType Examples.jsonSeqResponse "json" = true /\
  trace (world (snd (@init Examples.engine Examples.junoEnv
                       {| state := freshState false false true;
                          world := Examples.detailsOnly
                                     (Responds Examples.jsonSeqResponse) |}))) =
  [EvFetch "../data/juno/clinic-details.json"; EvConsoleLog false false true;
   EvJson "../data/juno/clinic-details.json";
   EvConsoleError (Failure "Unexpected token")].
Proof.
  split; [discriminate|]. split; vm_compute; reflexivity.
Qed.

(** *** The accordion *)

(** The details are drawn when they are the only section. *)
Lemma detailsOnly_draws {rt : Runtime} env w el r data dom :
  selector_ok (detailsSelector (env_parentSelector env)) = true ->
  find w (detailsSelector (env_parentSelector env)) = Some el ->
  net w (detailsUrl env) = Responds r ->
  ok r = true -> isContentType r "json" = true ->
  json r = Ok data ->
  hasItems data = Ok true ->
  createClinicDetailsAccordion data = Ok dom ->
  childNodes
    (world (snd (init env {| state := freshState false false true; world := w |}))) el
  = [dom].
Proof.
  intros Hsel Hfind Hnet Hok Htype Hjson Hitems Hdom.
  rewrite init_run, fetchAll_payloads. unfold committed, payloadOf.
  cbn [state world freshState partFlag partUrl partType isVisibleTitle
       isVisibleMap isVisibleDetailsAccordion].
  rewrite (payload_available w (detailsUrl env) "json" r Hnet Hok Htype).
  unfold payload, commits, commitPart. rewrite Hjson. cbn [fst snd].
  run_render. cbn. rewrite Hitems. cbn. rewrite Hsel, Hdom, Hfind. cbn.
  now rewrite Nat.eqb_refl.
Qed.

(** The details step draws what the build makes. *)
Lemma renderDetails_draws {rt : Runtime} env m el dom :
  isVisibleDetailsAccordion (state m) = true ->
  hasItems (clinicDetails (state m)) = Ok true ->
  selector_ok (detailsSelector (env_parentSelector env)) = true ->
  find (world m) (detailsSelector (env_parentSelector env)) = Some el ->
  createClinicDetailsAccordion (clinicDetails (state m)) = Ok dom ->
  renderDetails env m =
    (Ok tt, {| state := state m; world := withChildren el [dom] (world m) |}).
Proof.
  intros Hflag Hitems Hsel Hfind Hdom. run_render. cbn.
  rewrite Hflag, Hitems. cbn. rewrite Hsel. cbn. rewrite Hdom, Hfind. reflexivity.
Qed.

(** C7.  From the data of the spec the accordion is one list with one
    area item, whose header is the checkbox and the label of East and
    whose body is the markup of one clinic: the name, the hours and the
    closed days as given, an empty address, empty stations and no iframe.
    With the details marker present and that data in the state, the
    details step of [createContents] puts this accordion, and nothing
    else, into the details slot; so does [init] on an instance with the
    details marker alone, whose details are answered with that data. *)
Theorem C7_one_area_one_clinic {rt : Runtime}
    (params : Params) (w0 : World) (env : Env) (st : State) (w : World)
    (el : element) (r : Response) :
  embedClinicMap params w0 = Ok (env, st) ->
  isVisibleTitle st = false -> isVisibleMap st = false ->
  isVisibleDetailsAccordion st = true ->
  find w (detailsSelector (env_parentSelector env)) = Some el ->
  net w (detailsUrl env) = Responds r ->
  ok r = true -> isContentType r "json" = true ->
  json r = Ok Examples.eastData ->
  createClinicDetailsAccordion Examples.eastData = Ok Examples.eastAccordion /\
  Examples.eastEntry =
    shopHtml "Clinic A" "9-5" "Sun" EmptyString EmptyString EmptyString /\
  includes "<iframe" Examples.eastEntry = false /\
  (forall m slot,
     isVisibleDetailsAccordion (state m) = true ->
     clinicDetails (state m) = Examples.eastData ->
     find (world m) (detailsSelector (env_parentSelector env)) = Some slot ->
     renderDetails env m =
       (Ok tt, {| state := state m;
                  world := withChildren slot [Examples.eastAccordion] (world m) |})) /\
  childNodes (world (snd (init env {| state := st; world := w |}))) el =
    [Examples.eastAccordion].
Proof.
  intros H Ht Hm Hd Hfind Hnet Hok Htype Hjson.
  assert (Hdom : createClinicDetailsAccordion Examples.eastData =
                 Ok Examples.eastAccordion) by (vm_compute; reflexivity).
  split; [exact Hdom|]. split; [reflexivity|].
  split; [vm_compute; reflexivity|].
  destruct (constructed_instance _ _ _ _ H) as [_ Hsel].
  split.
  { intros m slot Hflag Hdata Hslot.
    apply renderDetails_draws; try assumption.
    - rewrite Hdata. reflexivity.
    - apply (Hsel Details).
    - rewrite Hdata. exact Hdom. }
  pose proof (embedClinicMap_inv _ _ _ _ H) as (t & mp & d & -> & _).
  cbn in Ht, Hm, Hd. subst t mp d.
  apply (detailsOnly_draws env w el r Examples.eastData); auto.
  apply (Hsel Details).
Qed.

(** The page of the spec: the details marker alone, the data of East. *)
Lemma C7_witness :
  childNodes
    (world (snd (@init Examples.engine Examples.junoEnv
                   {| state := freshState false false true;
                      world := Examples.detailsOnly
                                 (Responds (Examples.jsonResponse "[...]"
                                              Examples.eastData)) |}))) 3 =
  [Examples.eastAccordion].
Proof.
  exact (proj2 (proj2 (proj2 (proj2
    (@C7_one_area_one_clinic Examples.engine Examples.juno
       (Examples.page false false true Examples.offline)
       Examples.junoEnv (freshState false false true)
       (Examples.detailsOnly
          (Responds (Examples.jsonResponse "[...]" Examples.eastData)))
       3 (Examples.jsonResponse "[...]" Examples.eastData)
       eq_refl eq_refl eq_refl eq_refl eq_refl eq_refl eq_refl eq_refl eq_refl))))).
Defined.

(** A loop throws as soon as one of its items does. *)
Lemma forEach_throws {A} (f : A -> result node) items x :
  In x items -> (exists e, f x = Err e) -> exists e, forEach f items = Err e.
Proof.
  intros Hin Hx. induction items as [|y items IH]; [destruct Hin|].
  cbn [forEach]. unfold andThen at 1.
  destruct (f y) as [n|e] eqn:Hy; [|eexists; reflexivity].
  destruct Hin as [->|Hin].
  - destruct Hx as [e Hx]. congruence.
  - destruct (IH Hin) as [e He]. rewrite He. eexists; reflexivity.
Qed.

(** An area whose [clinics] is not an array has no item. *)
Lemma areaItem_throws {rt : Runtime} areaData :
  (forall clinics, member areaData "clinics" <> Ok (Some (JArr clinics))) ->
  exists e, areaItem areaData = Err e.
Proof.
  intros Hno. unfold areaItem, andThen.
  destruct (member areaData "area") as [area|e]; [|eexists; reflexivity].
  destruct (orEmpty area) as [label|e]; [|eexists; reflexivity].
  destruct (member areaData "clinics") as [[[| | | |clinics|]|]|e];
    try (eexists; reflexivity).
  destruct (Hno clinics). reflexivity.
Qed.

(** C9.  When building the accordion from the details of the state
    throws, the details step of [createContents] leaves the whole page as
    it was: the accordion is built before the slot is emptied.  The step
    then throws when its guards pass.  [createContents] as a whole, and
    [init] on a run that commits these details, change no element other
    than the slots of the title and of the map.  Details with an area
    whose [clinics] is absent, or is no array, are details whose build
    throws. *)
Theorem C9_details_slot_survives_a_failed_build {rt : Runtime}
    (env : Env) (m : Mem) (e : exn) :
  createClinicDetailsAccordion (clinicDetails (state m)) = Err e ->
  snd (renderDetails env m) = m /\
  (drawn Details (state m) = true -> exists e', fst (renderDetails env m) = Err e') /\
  (forall el,
     find (world m) (titleSelector (env_parentSelector env)) <> Some el ->
     find (world m) (mapSelector (env_parentSelector env)) <> Some el ->
     childNodes (world (snd (createContents env m))) el = childNodes (world m) el) /\
  (forall m0 el,
     committed env m0 = state m ->
     find (world m0) (titleSelector (env_parentSelector env)) <> Some el ->
     find (world m0) (mapSelector (env_parentSelector env)) <> Some el ->
     childNodes (world (snd (init env m0))) el = childNodes (world m0) el) /\
  (forall areas areaData,
     In areaData areas ->
     (forall clinics, member areaData "clinics" <> Ok (Some (JArr clinics))) ->
     exists e', createClinicDetailsAccordion (JArr areas) = Err e').
Proof.
  intros Hbuild. split; [|split; [|split; [|split]]].
  - run_render. cbn.
    destruct (isVisibleDetailsAccordion (state m)); [|reflexivity].
    destruct (hasItems (clinicDetails (state m))) as [[|]|]; try reflexivity.
    cbn. destruct (selector_ok _); [|reflexivity].
    cbn. rewrite Hbuild. reflexivity.
  - cbn [drawn]. run_render. cbn.
    destruct (isVisibleDetailsAccordion (state m)); [|discriminate].
    destruct (hasItems (clinicDetails (state m))) as [[|]|]; try discriminate.
    intros _. cbn. destruct (selector_ok _); [|eexists; reflexivity].
    cbn. rewrite Hbuild. eexists; reflexivity.
  - intros el Ht Hm.
    destruct (createContents_renders env m) as (_ & _ & _ & _ & _ & Hch).
    destruct (Hch el) as [Heq|(p & n & _ & Hfind & Hnode & _)]; [exact Heq|].
    exfalso. destruct p; cbn in Hfind, Hnode; congruence.
  - intros m0 el Hstate Ht Hm.
    destruct (init_spec env m0) as (_ & _ & _ & _ & Hch).
    destruct (Hch el) as [Heq|(p & n & _ & Hfind & Hnode & _)]; [exact Heq|].
    exfalso. rewrite Hstate in Hnode.
    destruct p; cbn in Hfind, Hnode; congruence.
  - intros areas areaData Hin Hno. unfold createClinicDetailsAccordion.
    destruct (forEach_throws areaItem areas areaData Hin (areaItem_throws _ Hno))
      as [e' He'].
    rewrite He'. eexists; reflexivity.
Qed.

(** An area without clinics: the build throws, the slot keeps its text. *)
Lemma C9_witness :
  let m :=
    {| state := withClinicDetails Examples.brokenData (freshState true true true);
       world := Examples.page true true true Examples.offline |} in
  @createClinicDetailsAccordion Examples.engine Examples.brokenData = Err TypeError /\
  snd (@renderDetails Examples.engine Examples.junoEnv m) = m /\
  childNodes (world (snd (@createContents Examples.engine Examples.junoEnv m))) 3 =
    [Text "loading"].
Proof.
  cbn zeta.
  pose proof (@C9_details_slot_survives_a_failed_build Examples.engine
                Examples.junoEnv
                {| state := withClinicDetails Examples.brokenData
                              (freshState true true true);
                   world := Examples.page true true true Examples.offline |}
                TypeError eq_refl) as (Hsame & _ & Hslot & _).
  split; [reflexivity|]. split; [exact Hsame|].
  apply Hslot; discriminate.
Defined.

(** *** A response without a content type *)


Lemma agree_children a b :
  agree a b -> childNodes (world (snd a)) = childNodes (world (snd b)).
Proof. intros []. reflexivity. Qed.




(** *** The style sheet *)

Lemma completes_spec {rt : Runtime} env m :
  completes env m =
  match fst (commits (payloadOf env (state m) (world m) Title)
               (payloadOf env (state m) (world m) Map)
               (payloadOf env (state m) (world m) Details) (state m)) with
  | Err _ => false
  | Ok _ =>
      match fst (createContents env
                   {| state := committed env m;
                      world := addEvents (fetchEvents env (state m) (world m))
                                 (world m) |}) with
      | Ok _ => true
      | Err _ => false
      end
  end.
Proof.
  rewrite completes_run, fetchAll_payloads.
  destruct (fst (commits _ _ _ _)); [|reflexivity].
  destruct (createContents _ _) as [[|] ?]; reflexivity.
Qed.





(** *** The promise of init *)





(** The trace of a call: what the fetch step adds, then the exception
    that the catch clause writes, if one was thrown. *)
Lemma init_trace {rt : Runtime} env m :
  trace (world (snd (init env m))) =
  trace (world m) ++ fetchEvents env (state m) (world m) ++
  match fst ((fetchAllWithSetData env ;; createContents env ;; embedStyleTag env) m)
  with
  | Err e => [EvConsoleError e]
  | Ok _ => []
  end.
Proof.
  unfold init, try_catch, bind. rewrite fetchAll_payloads.
  set (m1 := {| state := committed env m; world := _ |}).
  destruct (fst (commits _ _ _ _)) as [[]|e]; cbn [fst snd].
  - destruct (createContents_renders env m1) as (_ & _ & _ & _ & Ht & _).
    destruct (createContents env m1) as [[[]|e] m2]; cbn in *; rewrite Ht; cbn.
    + now rewrite app_nil_r.
    + now rewrite <- app_assoc.
  - cbn. now rewrite <- app_assoc.
Qed.




End EmbedderFacts.

(** ** Facts about the reporter *)

Module ReporterFacts.
Import Reporter.
Local Open Scope Z_scope.

Lemma onResize_same_width r :
  innerWidth (page r) = lastWidth r -> onResize r = r.
Proof.
  intros H. unfold onResize. rewrite H, Z.eqb_refl. reflexivity.
Qed.

(** While the window has the width last seen, a timer that runs reports
    nothing. *)
Lemma runTimers_same_width now r :
  innerWidth (page r) = lastWidth r ->
  posted (runTimers onResize now r) = posted r /\
  lastWidth (runTimers onResize now r) = lastWidth r /\
  page (runTimers onResize now r) = page r.
Proof.
  intros H. unfold runTimers.
  destruct (timeout r) as [due|]; [|auto].
  destruct (due <=? now); [|auto].
  rewrite onResize_same_width by exact H. auto.
Qed.

Lemma run_same_width timeline : forall finish r,
  innerWidth (page r) = lastWidth r ->
  Forall (widthKept (lastWidth r)) timeline ->
  posted (run timeline finish r) = posted r.
Proof.
  induction timeline as [|[t ev] timeline IH]; intros finish r Hw Hall; cbn [run].
  - apply runTimers_same_width; exact Hw.
  - inversion Hall as [|x l [p [Hev Hp]] Hrest]; subst. cbn in Hev. subst ev.
    destruct (runTimers_same_width t r Hw) as (Hposted & Hlast & Hpage).
    unfold step. cbn [handle].
    rewrite IH; cbn; congruence.
Qed.

Lemma runTimers_early callback now r due :
  timeout r = Some due -> now < due -> runTimers callback now r = r.
Proof.
  intros H Hlt. unfold runTimers. rewrite H.
  destruct (Z.leb_spec due now); [lia | reflexivity].
Qed.

Lemma runTimers_due callback now r due :
  timeout r = Some due -> due <= now ->
  runTimers callback now r =
  callback {| lastWidth := lastWidth r; timeout := None; page := page r;
              posted := posted r |}.
Proof.
  intros H Hle. unfold runTimers. rewrite H.
  destruct (Z.leb_spec due now); [reflexivity | lia].
Qed.

Lemma two_resizes r t1 p1 t2 p2 finish :
  innerWidth (page r) = lastWidth r ->
  t1 <= t2 < t1 + 200 ->
  let r' := run [(t1, Resize p1); (t2, Resize p2)] finish r in
  (finish < t2 + 200 -> posted r' = posted r) /\
  (t2 + 200 <= finish ->
   lastWidth r' = innerWidth p2 /\
   posted r' =
     posted r ++ (if innerWidth p2 =? lastWidth r then [] else [report p2])).
Proof.
  intros Hw Ht. simpl.
  destruct (runTimers_same_width t1 r Hw) as (Hposted & Hlast & Hpage).
  unfold step. destruct (runTimers onResize t1 r) as [lw0 to0 pg0 po0].
  simpl in Hposted, Hlast, Hpage. subst lw0 pg0 po0. simpl.
  rewrite (runTimers_early onResize t2 _ (t1 + 200)) by (simpl; auto; lia).
  simpl. split; intros Hf.
  - rewrite (runTimers_early onResize finish _ (t2 + 200)) by (simpl; auto; lia).
    reflexivity.
  - rewrite (runTimers_due onResize finish _ (t2 + 200)) by (simpl; auto; lia).
    unfold onResize, report. simpl.
    destruct (innerWidth p2 =? lastWidth r) eqn:E; simpl.
    + apply Z.eqb_eq in E. rewrite app_nil_r. auto.
    + auto.
Qed.

(** C8, as amended.  The resize handler is debounced by 200 ms and
    compares the width of the window with the width it saw last.  From a
    reporter whose window has the width it saw last, resize events that
    leave the width as it is, however many and whenever, post nothing.
    Two resize events less than 200 ms apart post nothing before 200 ms
    have passed since the second; after that they have posted one
    message, with the height measured in the last window, when the last
    width differs from the width seen before the two events, and none
    when the window is back at that width; the width seen last is then
    the last width. *)
Theorem C8_resize_is_debounced_and_compares_widths
    (r : Reporter) (t1 t2 finish : Z) (p1 p2 : Page) (timeline : list (Z * event)) :
  innerWidth (page r) = lastWidth r ->
  t1 <= t2 < t1 + 200 ->
  Forall (widthKept (lastWidth r)) timeline ->
  posted (run timeline finish r) = posted r /\
  let r' := run [(t1, Resize p1); (t2, Resize p2)] finish r in
  (finish < t2 + 200 -> posted r' = posted r) /\
  (t2 + 200 <= finish ->
   lastWidth r' = innerWidth p2 /\
   posted r' =
     posted r ++ (if innerWidth p2 =? lastWidth r then [] else [report p2])).
Proof.
  intros Hw Ht Hall. split.
  - apply run_same_width; assumption.
  - apply two_resizes; assumption.
Qed.

(** A resize of the height alone posts nothing; two resizes of the width,
    100 ms apart, have posted nothing after 250 ms and the height of the
    last window, once, after 300 ms. *)
Lemma C8_witness :
  posted (run [(0, Resize ReporterExamples.taller)] 300
            (reactiveContent ReporterExamples.wide)) =
    [report ReporterExamples.wide] /\
  posted (run [(0, Resize ReporterExamples.narrow);
               (100, Resize ReporterExamples.narrower)] 300
            (reactiveContent ReporterExamples.wide)) =
    [report ReporterExamples.wide; report ReporterExamples.narrower].
Proof.
  assert (Hkept : Forall (widthKept 800) [(0, Resize ReporterExamples.taller)]).
  { constructor; [|constructor]. exists ReporterExamples.taller. split; reflexivity. }
  assert (Hnear : 0 <= 100 < 0 + 200) by lia.
  pose proof (C8_resize_is_debounced_and_compares_widths
                (reactiveContent ReporterExamples.wide) 0 100 300
                ReporterExamples.narrow ReporterExamples.narrower
                [(0, Resize ReporterExamples.taller)]
                eq_refl Hnear Hkept) as (Hsame & _ & Hone).
  split; [exact Hsame|].
  assert (Hlate : 100 + 200 <= 300) by lia.
  exact (proj2 (Hone Hlate)).
Defined.

(** C8 as it was stated fails: the window goes from 800 to 500 and, 100
    ms later, back to 800; both events change the width, and nothing is
    posted, because the width is the one seen last. *)
Lemma C8_counterexample :
  innerWidth ReporterExamples.narrow <> innerWidth ReporterExamples.wide /\
  innerWidth ReporterExamples.wide <> innerWidth ReporterExamples.narrow /\
  0 <= 100 < 0 + 200 /\
  posted (run [(0, Resize ReporterExamples.narrow);
               (100, Resize ReporterExamples.wide)] 1000
            (reactiveContent ReporterExamples.wide)) =
    posted (reactiveContent ReporterExamples.wide).
Proof.
  split; [discriminate|]. split; [discriminate|]. split; [lia|].
  vm_compute. reflexivity.
Qed.

End ReporterFacts.

(** ** Further facts about the embedder *)

Module SubstringFacts.
Import JsString StringFacts.
Local Open Scope string_scope.

Lemma prefix_iff needle : forall hay,
  String.prefix needle hay = true <-> exists post, hay = needle ++ post.
Proof.
  induction needle as [|c needle IH]; intros hay.
  - split; [intros _; exists hay; reflexivity|]. intros _. destruct hay; reflexivity.
  - destruct hay as [|d hay]; cbn [String.prefix].
    + split; [discriminate|]. intros [post H]. discriminate.
    + destruct (ascii_dec c d) as [->|Hne].
      * rewrite IH. split; intros [post H]; exists post.
        -- now rewrite H.
        -- cbn in H. now inversion H.
      * split; [discriminate|]. intros [post H]. cbn in H. congruence.
Qed.

Lemma includes_iff needle hay :
  includes needle hay = true <-> exists pre post, hay = pre ++ needle ++ post.
Proof.
  split.
  - induction hay as [|c hay IH]; rewrite includes_unfold, orb_true_iff.
    + intros [H|H]; [|discriminate]. apply prefix_iff in H. destruct H as [post H].
      exists EmptyString, post. exact H.
    + intros [H|H].
      * apply prefix_iff in H. destruct H as [post H]. exists EmptyString, post. exact H.
      * destruct (IH H) as (pre & post & ->). exists (String c pre), post. reflexivity.
  - intros (pre & post & ->). apply includes_skip, includes_here.
Qed.
End SubstringFacts.

Module EmbedderExtras.
Import JsString Js Embedder EmbedderSteps StringFacts SubstringFacts EmbedderFacts.

Section Facts.
Context {rt : Runtime}.

(** *** The steps of createContents *)

Lemma renderTitle_step env m :
  renderTitle env m = applyStep (titleStep env (state m) (find (world m))) m.
Proof.
  unfold titleStep. run_render. cbn.
  destruct (isVisibleTitle (state m)); cbn; [|reflexivity].
  destruct (nonempty (titleSvg (state m))); cbn; [|reflexivity].
  destruct (selector_ok _); cbn; [|reflexivity].
  destruct (find (world m) _); reflexivity.
Qed.

Lemma renderMap_step env m :
  renderMap env m = applyStep (mapStep env (state m) (find (world m))) m.
Proof.
  unfold mapStep. run_render. cbn.
  destruct (isVisibleMap (state m)); cbn; [|reflexivity].
  destruct (selector_ok _); cbn; [|reflexivity].
  destruct (nonempty (mapSvg (state m))); cbn; [|reflexivity].
  destruct (find (world m) _); reflexivity.
Qed.

Lemma renderDetails_step env m :
  renderDetails env m = applyStep (detailsStep env (state m) (find (world m))) m.
Proof.
  unfold detailsStep. run_render. cbn.
  destruct (isVisibleDetailsAccordion (state m)); cbn; [|reflexivity].
  destruct (hasItems (clinicDetails (state m))) as [[|]|]; cbn; try reflexivity.
  destruct (selector_ok _); cbn; [|reflexivity].
  destruct (createClinicDetailsAccordion _); cbn; [|reflexivity].
  destruct (find (world m) _); reflexivity.
Qed.

Lemma applyStep_frame d m :
  state (snd (applyStep d m)) = state m /\
  find (world (snd (applyStep d m))) = find (world m) /\
  head (world (snd (applyStep d m))) = head (world m) /\
  net (world (snd (applyStep d m))) = net (world m) /\
  trace (world (snd (applyStep d m))) = trace (world m).
Proof. destruct d as [[[el n]|]|e]; repeat split. Qed.

Lemma applyStep_children d m :
  match d with
  | Err _ => childNodes (world (snd (applyStep d m))) = childNodes (world m)
  | Ok w => childNodes (world (snd (applyStep d m))) = written w (childNodes (world m))
  end.
Proof. destruct d as [[[el n]|]|e]; reflexivity. Qed.

Lemma applyStep_result d m :
  fst (applyStep d m) = match d with Err e => Err e | Ok _ => Ok tt end.
Proof. destruct d as [[[el n]|]|e]; reflexivity. Qed.

(** [createContents], as the three decisions it takes. *)
Lemma createContents_contents env m :
  let out := contents env (state m) (find (world m)) (childNodes (world m)) in
  fst (createContents env m) = fst out /\
  state (snd (createContents env m)) = state m /\
  find (world (snd (createContents env m))) = find (world m) /\
  head (world (snd (createContents env m))) = head (world m) /\
  net (world (snd (createContents env m))) = net (world m) /\
  trace (world (snd (createContents env m))) = trace (world m) /\
  childNodes (world (snd (createContents env m))) = snd out.
Proof.
  cbn zeta. unfold createContents, contents, bind.
  rewrite renderTitle_step.
  destruct (applyStep_frame (titleStep env (state m) (find (world m))) m)
    as (Hs1 & Hf1 & Hh1 & Hn1 & Ht1).
  pose proof (applyStep_children (titleStep env (state m) (find (world m))) m) as Hc1.
  pose proof (applyStep_result (titleStep env (state m) (find (world m))) m) as Hr1.
  destruct (applyStep (titleStep env (state m) (find (world m))) m) as [r1 m1].
  cbn [fst snd] in *.
  destruct (titleStep env (state m) (find (world m))) as [wT|e]; subst r1;
    cbn [fst snd] in *; [|repeat split; assumption].
  rewrite renderMap_step, Hs1, Hf1.
  destruct (applyStep_frame (mapStep env (state m) (find (world m))) m1)
    as (Hs2 & Hf2 & Hh2 & Hn2 & Ht2).
  pose proof (applyStep_children (mapStep env (state m) (find (world m))) m1) as Hc2.
  pose proof (applyStep_result (mapStep env (state m) (find (world m))) m1) as Hr2.
  destruct (applyStep (mapStep env (state m) (find (world m))) m1) as [r2 m2].
  cbn [fst snd] in *.
  destruct (mapStep env (state m) (find (world m))) as [wM|e]; subst r2;
    cbn [fst snd] in *; [|repeat split; congruence].
  rewrite renderDetails_step, Hs2, Hf2, Hs1, Hf1.
  destruct (applyStep_frame (detailsStep env (state m) (find (world m))) m2)
    as (Hs3 & Hf3 & Hh3 & Hn3 & Ht3).
  pose proof (applyStep_children (detailsStep env (state m) (find (world m))) m2) as Hc3.
  pose proof (applyStep_result (detailsStep env (state m) (find (world m))) m2) as Hr3.
  destruct (applyStep (detailsStep env (state m) (find (world m))) m2) as [r3 m3].
  cbn [fst snd] in *.
  destruct (detailsStep env (state m) (find (world m))) as [wD|e]; subst r3;
    cbn [fst snd] in *; repeat split; congruence.
Qed.

Lemma written_twice w before el :
  written w (written w before) el = written w before el.
Proof.
  unfold written. destruct w as [[el' n]|]; [|reflexivity].
  destruct (Nat.eqb el el'); reflexivity.
Qed.

(** Drawing over what was drawn gives what was drawn. *)
Lemma contents_again env st fd before el :
  snd (contents env st fd (snd (contents env st fd before))) el =
  snd (contents env st fd before) el.
Proof.
  unfold contents.
  destruct (titleStep env st fd) as [[[e1 n1]|]|]; [| |reflexivity];
    (destruct (mapStep env st fd) as [[[e2 n2]|]|]);
    (destruct (detailsStep env st fd) as [[[e3 n3]|]|]);
    cbn [fst snd]; unfold written;
    repeat match goal with
           | |- context [Nat.eqb el ?x] => destruct (Nat.eqb el x)
           end; reflexivity.
Qed.

Lemma contents_result env st fd before before' :
  fst (contents env st fd before) = fst (contents env st fd before').
Proof.
  unfold contents.
  destruct (titleStep env st fd); [|reflexivity].
  destruct (mapStep env st fd); [|reflexivity].
  destruct (detailsStep env st fd); reflexivity.
Qed.

(** X9.  Drawing twice is drawing once: a second [createContents] on the
    page that the first one left ends the same way, and leaves the state,
    the head, the trace and the children of every element as they were
    after the first.  A slot holds what was drawn last, never a copy
    added to the copy before. *)
Theorem X9_createContents_idempotent env m :
  let once := createContents env m in
  let twice := createContents env (snd once) in
  fst twice = fst once /\
  state (snd twice) = state (snd once) /\
  head (world (snd twice)) = head (world (snd once)) /\
  trace (world (snd twice)) = trace (world (snd once)) /\
  forall el, childNodes (world (snd twice)) el = childNodes (world (snd once)) el.
Proof.
  cbn zeta.
  destruct (createContents_contents env m) as (Hr1 & Hs1 & Hf1 & Hh1 & Hn1 & Ht1 & Hc1).
  destruct (createContents_contents env (snd (createContents env m)))
    as (Hr2 & Hs2 & Hf2 & Hh2 & Hn2 & Ht2 & Hc2).
  cbn zeta in *. rewrite Hs1, Hf1 in Hr2, Hc2.
  repeat split; try congruence.
  - rewrite Hr2, Hr1. apply contents_result.
  - intros el. rewrite Hc2, Hc1. apply contents_again.
Qed.

Lemma commits_flags pT pM pD st p :
  partFlag p (snd (commits pT pM pD st)) = partFlag p st.
Proof.
  unfold commits, commitPart.
  destruct pT as [rT|]; [destruct (text rT)|];
    (destruct pM as [rM|]; [destruct (text rM)|]);
    (destruct pD as [rD|]; [destruct (json rD)|]); destruct p; reflexivity.
Qed.

Lemma commits_again pT pM pD st :
  commits pT pM pD (snd (commits pT pM pD st)) = commits pT pM pD st.
Proof.
  unfold commits, commitPart. destruct st.
  destruct pT as [rT|]; [destruct (text rT)|];
    (destruct pM as [rM|]; [destruct (text rM)|]);
    (destruct pD as [rD|]; [destruct (json rD)|]); reflexivity.
Qed.

Lemma init_children env m :
  childNodes (world (snd (init env m))) =
  match commitOutcome env m with
  | Err _ => childNodes (world m)
  | Ok _ =>
      snd (contents env (committed env m) (find (world m)) (childNodes (world m)))
  end.
Proof.
  unfold commitOutcome. rewrite init_run, fetchAll_payloads.
  set (m1 := {| state := committed env m; world := _ |}).
  destruct (fst (commits _ _ _ _)) as [[]|e]; [|reflexivity].
  destruct (createContents_contents env m1) as (_ & _ & _ & _ & _ & _ & Hc).
  cbn zeta in Hc. cbn [fst snd].
  destruct (createContents env m1) as [[[]|e] m2]; cbn [fst snd] in *; exact Hc.
Qed.

Lemma payloadOf_after_init env m p :
  payloadOf env (state (snd (init env m))) (world (snd (init env m))) p =
  payloadOf env (state m) (world m) p.
Proof.
  destruct (init_spec env m) as (Hs & _ & Hn & _).
  unfold payloadOf, payload. rewrite Hn, Hs. unfold committed.
  now rewrite commits_flags.
Qed.

Lemma committed_after_init env m :
  committed env (snd (init env m)) = committed env m /\
  commitOutcome env (snd (init env m)) = commitOutcome env m.
Proof.
  unfold committed at 1, commitOutcome at 1.
  rewrite !payloadOf_after_init.
  destruct (init_spec env m) as (Hs & _). rewrite Hs. unfold committed, commitOutcome.
  now rewrite commits_again.
Qed.

(** X10.  A second [init] on the same instance, with the network
    answering as before, leaves the state and the children of every
    element as the first call left them. *)
Theorem X10_init_again env m :
  let m1 := snd (init env m) in
  let m2 := snd (init env m1) in
  state m2 = state m1 /\
  forall el, childNodes (world m2) el = childNodes (world m1) el.
Proof.
  cbn zeta.
  destruct (committed_after_init env m) as [Hc Ho].
  destruct (init_spec env m) as (Hs1 & Hf1 & _).
  destruct (init_spec env (snd (init env m))) as (Hs2 & _).
  split; [congruence|].
  intros el. rewrite (init_children env (snd (init env m))), Ho, Hc, Hf1.
  rewrite (init_children env m).
  destruct (commitOutcome env m); [|reflexivity].
  apply contents_again.
Qed.

(** *** What a run commits *)

Lemma payload_some w flag url type r :
  payload w flag url type = Some r ->
  flag = true /\ net w url = Responds r /\ ok r = true /\ isContentType r type = true.
Proof.
  unfold payload. destruct flag; [|discriminate].
  destruct (net w url) as [e|r']; [discriminate|].
  destruct (ok r') eqn:Hok; cbn; [|discriminate].
  destruct (isContentType r' type) eqn:Hct; [|discriminate].
  intros H. inversion H; subst. auto.
Qed.

Lemma commits_field pT pM pD st p :
  let st' := snd (commits pT pM pD st) in
  fieldKept p st st' \/
  exists r,
    match p with Title => pT | Map => pM | Details => pD end = Some r /\
    bodyOf p r st'.
Proof.
  cbn zeta. unfold commits, commitPart.
  destruct pT as [rT|]; [destruct (text rT) eqn:HT|];
    (destruct pM as [rM|]; [destruct (text rM) eqn:HM|]);
    (destruct pD as [rD|]; [destruct (json rD) eqn:HD|]);
    destruct p; cbn;
    first [ left; reflexivity | right; eexists; split; [reflexivity|assumption] ].
Qed.

Lemma commits_err pT pM pD st e :
  fst (commits pT pM pD st) = Err e ->
  exists p r,
    match p with Title => pT | Map => pM | Details => pD end = Some r /\
    readFails p r e.
Proof.
  unfold commits, commitPart.
  destruct pT as [rT|]; [destruct (text rT) eqn:HT|];
    (destruct pM as [rM|]; [destruct (text rM) eqn:HM|]);
    (destruct pD as [rD|]; [destruct (json rD) eqn:HD|]);
    cbn; intros H; inversion H; subst;
    first [ exists Title; eexists; split; [reflexivity|assumption]
          | exists Map; eexists; split; [reflexivity|assumption]
          | exists Details; eexists; split; [reflexivity|assumption] ].
Qed.

(** X4.  Whatever the network answers, [init] leaves the three flags,
    what the selectors find and the network as they were, and a field of
    the state is after the call either what it was before or the body of
    the response that its section got: a response to a request that was
    made, with a success status and the content type of the section. *)
Theorem X4_init_commits_what_passed env m p :
  let st' := state (snd (init env m)) in
  (forall q, partFlag q st' = partFlag q (state m)) /\
  find (world (snd (init env m))) = find (world m) /\
  net (world (snd (init env m))) = net (world m) /\
  (fieldKept p (state m) st' \/
   exists r,
     partFlag p (state m) = true /\
     net (world m) (partUrl env p) = Responds r /\
     ok r = true /\ isContentType r (partType p) = true /\
     bodyOf p r st').
Proof.
  cbn zeta. destruct (init_spec env m) as (Hs & Hf & Hn & _).
  rewrite Hs. unfold committed.
  split; [intros q; apply commits_flags|]. split; [exact Hf|]. split; [exact Hn|].
  destruct (commits_field (payloadOf env (state m) (world m) Title)
              (payloadOf env (state m) (world m) Map)
              (payloadOf env (state m) (world m) Details) (state m) p)
    as [Hkept|(r & Hp & Hbody)]; [left; exact Hkept|].
  right. exists r.
  assert (Hpay : payloadOf env (state m) (world m) p = Some r)
    by (destruct p; exact Hp).
  apply payload_some in Hpay. tauto.
Qed.

(** X5.  When [fetchAllWithSetData] throws, it is the body of a response
    that had passed both checks which could not be read or parsed; the
    promise of [init] is fulfilled all the same, no element and no style
    element is touched, and the error is the last line of the console. *)
Theorem X5_init_abandoned_by_a_failed_read env m e :
  fst (fetchAllWithSetData env m) = Err e ->
  (exists p r,
     partFlag p (state m) = true /\
     net (world m) (partUrl env p) = Responds r /\
     ok r = true /\ isContentType r (partType p) = true /\
     readFails p r e) /\
  fst (init env m) = Ok tt /\
  childNodes (world (snd (init env m))) = childNodes (world m) /\
  head (world (snd (init env m))) = head (world m) /\
  trace (world (snd (init env m))) =
    trace (world m) ++ fetchEvents env (state m) (world m) ++ [EvConsoleError e].
Proof.
  rewrite init_run. rewrite fetchAll_payloads. cbn [fst snd]. intros Herr.
  split.
  - destruct (commits_err _ _ _ _ _ Herr) as (p & r & Hp & Hfail).
    exists p, r.
    assert (Hpay : payloadOf env (state m) (world m) p = Some r)
      by (destruct p; exact Hp).
    apply payload_some in Hpay. tauto.
  - rewrite Herr. cbn. rewrite <- app_assoc. auto.
Qed.

(** X3.  [init] issues all its requests before it awaits any of them:
    what it adds to the trace starts with the [fetch] calls of the
    sections asked for, in the order title, map, details, then the log
    of the promises; no [fetch] comes after that. *)
Theorem X3_init_requests_first env m :
  exists rest,
    trace (world (snd (init env m))) =
      trace (world m) ++ List.map EvFetch (requested env (state m)) ++
      EvConsoleLog (isVisibleTitle (state m)) (isVisibleMap (state m))
        (isVisibleDetailsAccordion (state m)) :: rest /\
    fetchesOf rest = [].
Proof.
  rewrite init_trace. unfold fetchEvents, requested.
  eexists. split.
  - rewrite <- !app_assoc. cbn [app]. reflexivity.
  - rewrite !fetchesOf_app, !fetchesOf_settleLog, fetchesOf_reads.
    destruct (fst _) as [[]|e]; reflexivity.
Qed.

(** X11.  When the three markers are present and the three requests are
    answered with a success, the right content type and a body (the
    images not empty, the details with items and a build that succeeds),
    [init] commits the three bodies, puts the accordion into the details
    slot, the map into the map slot and the title into the title slot (a
    slot shared by two sections holds the later one), leaves every other
    element alone and appends the style element to the head. *)
Theorem X11_init_draws_all_three env m elT elM elD rT rM rD t mp data dom :
  isVisibleTitle (state m) = true ->
  isVisibleMap (state m) = true ->
  isVisibleDetailsAccordion (state m) = true ->
  net (world m) titleUrl = Responds rT -> ok rT = true ->
  isContentType rT "xml" = true -> text rT = Ok t -> nonempty t = true ->
  net (world m) (mapUrl env) = Responds rM -> ok rM = true ->
  isContentType rM "xml" = true -> text rM = Ok mp -> nonempty mp = true ->
  net (world m) (detailsUrl env) = Responds rD -> ok rD = true ->
  isContentType rD "json" = true -> json rD = Ok data ->
  hasItems data = Ok true ->
  createClinicDetailsAccordion data = Ok dom ->
  (forall p, selector_ok (partSelector env p) = true) ->
  find (world m) (titleSelector (env_parentSelector env)) = Some elT ->
  find (world m) (mapSelector (env_parentSelector env)) = Some elM ->
  find (world m) (detailsSelector (env_parentSelector env)) = Some elD ->
  let after := snd (init env m) in
  titleSvg (state after) = t /\ mapSvg (state after) = mp /\
  clinicDetails (state after) = data /\
  childNodes (world after) elD = [dom] /\
  (elM <> elD -> childNodes (world after) elM = [SvgDocument mp]) /\
  (elT <> elM -> elT <> elD -> childNodes (world after) elT = [SvgDocument t]) /\
  (forall el, el <> elT -> el <> elM -> el <> elD ->
     childNodes (world after) el = childNodes (world m) el) /\
  head (world after) = head (world m) ++ [styleElement env].
Proof.
  intros HfT HfM HfD HnT HoT HcT HtT HneT HnM HoM HcM HtM HneM HnD HoD HcD HjD
    Hitems Hdom Hsel HelT HelM HelD. cbn zeta.
  pose proof (Hsel Title) as HsT. pose proof (Hsel Map) as HsM.
  pose proof (Hsel Details) as HsD. cbn in HsT, HsM, HsD.
  assert (HpT : payloadOf env (state m) (world m) Title = Some rT).
  { unfold payloadOf. cbn. rewrite HfT. now apply payload_available. }
  assert (HpM : payloadOf env (state m) (world m) Map = Some rM).
  { unfold payloadOf. cbn. rewrite HfM. now apply payload_available. }
  assert (HpD : payloadOf env (state m) (world m) Details = Some rD).
  { unfold payloadOf. cbn. rewrite HfD. now apply payload_available. }
  assert (Hcommit : commits (Some rT) (Some rM) (Some rD) (state m) =
            (Ok tt, withClinicDetails data (withMapSvg mp (withTitleSvg t (state m))))).
  { unfold commits, commitPart. rewrite HtT, HtM, HjD. reflexivity. }
  assert (Hstate : committed env m =
            withClinicDetails data (withMapSvg mp (withTitleSvg t (state m)))).
  { unfold committed. rewrite HpT, HpM, HpD, Hcommit. reflexivity. }
  assert (Hout : commitOutcome env m = Ok tt).
  { unfold commitOutcome. rewrite HpT, HpM, HpD, Hcommit. reflexivity. }
  assert (Hcontents :
            contents env (committed env m) (find (world m)) (childNodes (world m)) =
            (Ok tt,
             written (Some (elD, dom))
               (written (Some (elM, SvgDocument mp))
                  (written (Some (elT, SvgDocument t)) (childNodes (world m)))))).
  { rewrite Hstate. unfold contents, titleStep, mapStep, detailsStep. cbn.
    rewrite HfT, HfM, HfD, HneT, HneM, HsT, HsM, HsD, Hitems, Hdom, HelT, HelM, HelD.
    reflexivity. }
  destruct (init_spec env m) as (Hs & _).
  rewrite Hs, Hstate, init_children, Hout, Hcontents. cbn [snd].
  split; [reflexivity|]. split; [reflexivity|]. split; [reflexivity|].
  split; [|split; [|split; [|split]]].
  - unfold written. now rewrite Nat.eqb_refl.
  - intros Hne. unfold written.
    destruct (Nat.eqb_spec elM elD); [contradiction|]. now rewrite Nat.eqb_refl.
  - intros Hne1 Hne2. unfold written.
    destruct (Nat.eqb_spec elT elD); [contradiction|].
    destruct (Nat.eqb_spec elT elM); [contradiction|]. now rewrite Nat.eqb_refl.
  - intros el H1 H2 H3. unfold written.
    destruct (Nat.eqb_spec el elD); [contradiction|].
    destruct (Nat.eqb_spec el elM); [contradiction|].
    destruct (Nat.eqb_spec el elT); [contradiction|]. reflexivity.
  - rewrite init_head, completes_spec. fold (commitOutcome env m). rewrite Hout.
    pose proof (createContents_contents env
                  {| state := committed env m;
                     world := addEvents (fetchEvents env (state m) (world m))
                                (world m) |}) as (Hr & _).
    cbn zeta in Hr. cbn [state world find childNodes addEvents] in Hr.
    rewrite Hr, Hcontents. reflexivity.
Qed.

(** *** Content types, requests and the accordion *)

Lemma includes_nonempty needle ct :
  nonempty needle = true ->
  (if negb (nonempty ct) then false else includes needle ct) = includes needle ct.
Proof.
  intros Hn. destruct ct; [|reflexivity]. destruct needle; [discriminate|reflexivity].
Qed.

Lemma header_includes needle (header : option string) :
  match header with Some ct => includes needle ct | None => false end = true <->
  exists pre post, header = Some (pre ++ needle ++ post)%string.
Proof.
  destruct header as [ct|].
  - rewrite includes_iff. split; intros (pre & post & H); exists pre, post; congruence.
  - split; [discriminate|]. intros (pre & post & H). discriminate.
Qed.

Lemma isContentType_cases (r : Response) :
  isContentType r "json" =
    match contentType r with Some ct => includes "application/json" ct | None => false end /\
  isContentType r "xml" =
    (match contentType r with Some ct => includes "image/svg+xml" ct | None => false end ||
     match contentType r with Some ct => includes "application/xml" ct | None => false end) /\
  isContentType r "text" =
    match contentType r with Some ct => includes "text/plain" ct | None => false end /\
  isContentType r "html" =
    match contentType r with Some ct => includes "text/html" ct | None => false end.
Proof.
  unfold isContentType. destruct (contentType r) as [ct|]; [|repeat split].
  repeat split.
  - rewrite <- (includes_nonempty "application/json" ct) by reflexivity.
    destruct (negb (nonempty ct)); reflexivity.
  - destruct ct; reflexivity.
  - rewrite <- (includes_nonempty "text/plain" ct) by reflexivity.
    destruct (negb (nonempty ct)); reflexivity.
  - rewrite <- (includes_nonempty "text/html" ct) by reflexivity.
    destruct (negb (nonempty ct)); reflexivity.
Qed.

(** X1.  [isContentType] is a test for a piece of text in the header:
    [json] passes exactly when the Content-Type header contains
    [application/json], [xml] when it contains [image/svg+xml] or
    [application/xml], [text] when it contains [text/plain], [html] when
    it contains [text/html]; any other type name passes for no response. *)
Theorem X1_isContentType_spec (r : Response) :
  (isContentType r "json" = true <->
   exists pre post, contentType r = Some (pre ++ "application/json" ++ post)%string) /\
  (isContentType r "xml" = true <->
   (exists pre post, contentType r = Some (pre ++ "image/svg+xml" ++ post)%string) \/
   (exists pre post, contentType r = Some (pre ++ "application/xml" ++ post)%string)) /\
  (isContentType r "text" = true <->
   exists pre post, contentType r = Some (pre ++ "text/plain" ++ post)%string) /\
  (isContentType r "html" = true <->
   exists pre post, contentType r = Some (pre ++ "text/html" ++ post)%string) /\
  (forall type,
     type <> "json"%string -> type <> "text"%string -> type <> "xml"%string ->
     type <> "html"%string -> isContentType r type = false).
Proof.
  destruct (isContentType_cases r) as (Hj & Hx & Ht & Hh).
  rewrite Hj, Hx, Ht, Hh, orb_true_iff, !header_includes.
  repeat split; try tauto.
  intros type H1 H2 H3 H4. unfold isContentType.
  destruct (contentType r) as [ct|]; [|reflexivity].
  destruct (negb (nonempty ct)); [reflexivity|].
  destruct (String.eqb_spec type "json"); [contradiction|].
  destruct (String.eqb_spec type "text"); [contradiction|].
  destruct (String.eqb_spec type "xml"); [contradiction|].
  destruct (String.eqb_spec type "html"); [contradiction|]. reflexivity.
Qed.

(** X2.  [fetchData] never rejects.  It is fulfilled with the response
    when the request is answered with a success status and with
    undefined otherwise; it calls [fetch] once, writes the rejection or
    the status to the console in the second case and nothing in the
    first, and touches neither the state nor the page. *)
Theorem X2_fetchData_never_rejects url m :
  let out := fetchData url m in
  fst out =
    Ok (match net (world m) url with
        | Responds r => if ok r then Some r else None
        | Rejects _ => None
        end) /\
  state (snd out) = state m /\
  find (world (snd out)) = find (world m) /\
  childNodes (world (snd out)) = childNodes (world m) /\
  head (world (snd out)) = head (world m) /\
  net (world (snd out)) = net (world m) /\
  trace (world (snd out)) =
    trace (world m) ++ EvFetch url :: settleLog (world m) true url.
Proof.
  cbn zeta. unfold fetchData, fetchData_call, fetchData_settle, settleLog,
    console_error, emit, set_world, get_world, try_catch, bind, ret, throw.
  cbn. destruct (net (world m) url) as [e|r]; cbn.
  - repeat split. now rewrite <- app_assoc.
  - destruct (ok r); cbn; repeat split; now rewrite <- app_assoc.
Qed.

Lemma forEach_Forall2 {A} (f : A -> result node) items : forall ns,
  forEach f items = Ok ns -> Forall2 (fun x n => f x = Ok n) items ns.
Proof.
  induction items as [|x items IH]; intros ns H; cbn [forEach] in H.
  - inversion H. constructor.
  - unfold andThen in H. destruct (f x) as [n|] eqn:Hx; [|discriminate].
    destruct (forEach f items) as [rest|]; [|discriminate].
    inversion H; subst. constructor; auto.
Qed.

Lemma areaItem_shape areaData item :
  textArea areaData = true -> areaItem areaData = Ok item -> isAreaItem areaData item.
Proof.
  unfold textArea, areaItem, isAreaItem, itemTemplate.
  destruct (andThen (member areaData "area") orEmpty) as [label|]; [|discriminate].
  intros Htext. apply negb_true_iff in Htext. unfold andThen.
  destruct (member areaData "clinics") as [[[| | | |clinics|]|]|]; try discriminate.
  rewrite Htext.
  destruct (forEach clinicEntry clinics) as [entries|] eqn:Hentries; [|discriminate].
  intros H. inversion H; subst.
  exists label, clinics, entries. repeat split. apply forEach_Forall2. exact Hentries.
Qed.

(** X6.  An accordion that is built from an array of areas whose texts
    hold no [<] is one list with one item for each area, in order; the
    item of an area has the text of its [area] in its header and, in
    its body, one entry for each clinic of the area, in order. *)
Theorem X6_accordion_shape areas dom :
  forallb textArea areas = true ->
  createClinicDetailsAccordion (JArr areas) = Ok dom ->
  exists items,
    dom = Element "div" [("class", "cl-details-acd__list")] items /\
    List.length items = List.length areas /\
    Forall2 isAreaItem areas items.
Proof.
  unfold createClinicDetailsAccordion, andThen. intros Htext.
  destruct (forEach areaItem areas) as [items|] eqn:Hitems; [|discriminate].
  intros H. inversion H; subst. exists items.
  apply forEach_Forall2 in Hitems.
  split; [reflexivity|]. split.
  - symmetry. eapply Forall2_length. exact Hitems.
  - induction Hitems as [|a n areas items Ha Hrest IH]; constructor;
      cbn [forallb] in Htext; apply andb_true_iff in Htext; destruct Htext as [H1 H2].
    + apply areaItem_shape; assumption.
    + apply IH; [exact H2|reflexivity].
Qed.

Lemma member_field v k : v <> JNull -> member v k = Ok (field v k).
Proof. destruct v; intros H; try reflexivity. contradiction. Qed.

Lemma orEmpty_plain v : plain v = true -> exists s, orEmpty v = Ok s.
Proof.
  destruct v as [[| [|] | | | |]|]; cbn; intros H; try discriminate; eauto.
Qed.

Lemma forEach_ok {A} (f : A -> result node) items :
  (forall x, In x items -> exists n, f x = Ok n) ->
  exists ns, forEach f items = Ok ns.
Proof.
  induction items as [|x items IH]; intros H; cbn [forEach]; [eauto|].
  destruct (H x (or_introl eq_refl)) as [n Hn].
  destruct IH as [ns Hns]; [intros y Hy; apply H; now right|].
  unfold andThen. rewrite Hn, Hns. eauto.
Qed.

Lemma clinicEntry_plain clinic :
  plainClinic clinic = true -> exists n, clinicEntry clinic = Ok n.
Proof.
  intros H.
  assert (Hnn : clinic <> JNull) by (intros ->; discriminate).
  assert (Hall : forallb (fun k => plain (field clinic k))
            ["mapUrl"; "name"; "hours"; "closed"; "address"; "stations"] = true)
    by (destruct clinic; try exact H; discriminate).
  cbn [forallb] in Hall. rewrite !andb_true_iff in Hall.
  destruct Hall as (Hu & Hn & Hh & Hc & Ha & Hs & _).
  unfold clinicEntry. rewrite !(member_field clinic) by exact Hnn.
  destruct (orEmpty_plain _ Hn) as [sn En]. destruct (orEmpty_plain _ Hh) as [sh Eh].
  destruct (orEmpty_plain _ Hc) as [sc Ec]. destruct (orEmpty_plain _ Ha) as [sa Ea].
  destruct (orEmpty_plain _ Hs) as [ss Es].
  cbn [andThen]. rewrite En, Eh, Ec, Ea, Es. cbn [andThen].
  destruct (field clinic "mapUrl") as [[| [|] | | | |]|]; cbn in Hu |- *;
    try discriminate; try (eexists; reflexivity).
  destruct (nonempty s); eexists; reflexivity.
Qed.

Lemma areaItem_plain areaData :
  plainArea areaData = true -> textArea areaData = true ->
  exists n, areaItem areaData = Ok n.
Proof.
  intros H Htext.
  assert (Hnn : areaData <> JNull) by (intros ->; discriminate).
  assert (Hboth : plain (field areaData "area") &&
            match field areaData "clinics" with
            | Some (JArr clinics) => forallb plainClinic clinics
            | _ => false
            end = true)
    by (destruct areaData; try exact H; discriminate).
  apply andb_true_iff in Hboth. destruct Hboth as [Harea Hclinics].
  unfold textArea in Htext. unfold areaItem, itemTemplate.
  rewrite !(member_field areaData) in * by exact Hnn.
  destruct (orEmpty_plain _ Harea) as [label El]. cbn [andThen] in *.
  rewrite El in *. apply negb_true_iff in Htext.
  cbn [andThen].
  destruct (field areaData "clinics") as [[| | | |clinics|]|]; try discriminate.
  rewrite Htext.
  destruct (forEach_ok clinicEntry clinics) as [entries He].
  { intros c Hc. apply clinicEntry_plain.
    rewrite forallb_forall in Hclinics. auto. }
  rewrite He. cbn. eauto.
Qed.

(** X7.  Details in which no area and no clinic is null, every [clinics]
    is an array, every property that is read ([area], [name], [hours],
    [closed], [address], [stations], [mapUrl]) is absent, null, a
    string or a boolean, and no text of an area holds a [<], can always
    be built: the build does not throw, whatever the engine. *)
Theorem X7_plain_details_build areas :
  forallb plainArea areas = true ->
  forallb textArea areas = true ->
  exists dom, createClinicDetailsAccordion (JArr areas) = Ok dom.
Proof.
  intros H Htext. unfold createClinicDetailsAccordion.
  destruct (forEach_ok areaItem areas) as [items Hi].
  { intros a Ha. rewrite forallb_forall in H, Htext. apply areaItem_plain; auto. }
  rewrite Hi. cbn. eauto.
Qed.

(** X8.  With the details flag set, details that are an empty
    array, an empty object, a boolean, a number or an empty string are
    passed over without an error; details that are null throw a
    TypeError and details that are a non-empty string throw; an object
    is never drawn.  In all these cases the details step leaves the
    page as it was. *)
Theorem X8_details_edge_values env m :
  isVisibleDetailsAccordion (state m) = true ->
  match clinicDetails (state m) with
  | JArr [] => renderDetails env m = (Ok tt, m)
  | JObj [] => renderDetails env m = (Ok tt, m)
  | JBool _ => renderDetails env m = (Ok tt, m)
  | JNum _ => renderDetails env m = (Ok tt, m)
  | JStr EmptyString => renderDetails env m = (Ok tt, m)
  | JNull => renderDetails env m = (Err TypeError, m)
  | JStr (String _ _) => exists e, renderDetails env m = (Err e, m)
  | JObj (_ :: _) => snd (renderDetails env m) = m
  | JArr (_ :: _) => True
  end.
Proof.
  intros Hflag. rewrite renderDetails_step. unfold detailsStep, hasItems.
  rewrite Hflag.
  destruct (clinicDetails (state m)) as [| b | n | [|c s] | [|a items] | [|kv props]];
    cbn [nonempty applyStep]; try reflexivity; try exact I.
  - destruct (selector_ok _); eexists; reflexivity.
  - destruct (lookup "length" (kv :: props)) as [len|]; [|reflexivity].
    destruct (gt_zero len) as [[|]|]; try reflexivity.
    destruct (selector_ok _); reflexivity.
Qed.

End Facts.

(** *** The facts at concrete pages *)

(** The details answer with a body that is announced as JSON and is not:
    the run is abandoned, nothing is drawn, the error is logged last. *)
Lemma X5_witness :
  let m := {| state := freshState true true true; world := Examples.brokenDetails |} in
  let e := Failure "Unexpected token o" in
  fst (fetchAllWithSetData Examples.junoEnv m) = Err e /\
  fst (@init Examples.engine Examples.junoEnv m) = Ok tt /\
  childNodes (world (snd (@init Examples.engine Examples.junoEnv m))) =
    childNodes (world m) /\
  head (world (snd (@init Examples.engine Examples.junoEnv m))) = head (world m) /\
  trace (world (snd (@init Examples.engine Examples.junoEnv m))) =
    trace (world m) ++
    fetchEvents Examples.junoEnv (state m) (world m) ++
    [EvConsoleError e].
Proof.
  cbn zeta.
  assert (H : fst (fetchAllWithSetData Examples.junoEnv
                     {| state := freshState true true true;
                        world := Examples.brokenDetails |}) =
              Err (Failure "Unexpected token o")) by (vm_compute; reflexivity).
  split; [exact H|].
  exact (proj2 (@X5_init_abandoned_by_a_failed_read Examples.engine Examples.junoEnv
                  _ _ H)).
Defined.

(** Two areas, of two clinics and of one: two items, with two entries
    and with one. *)
Lemma X6_witness :
  forallb (@textArea Examples.engine) MoreExamples.twoAreas = true /\
  exists dom items,
    @createClinicDetailsAccordion Examples.engine (JArr MoreExamples.twoAreas) = Ok dom /\
    dom = Element "div" [("class", "cl-details-acd__list")] items /\
    List.length items = 2 /\
    Forall2 (@isAreaItem Examples.engine) MoreExamples.twoAreas items.
Proof.
  assert (Htext : forallb (@textArea Examples.engine) MoreExamples.twoAreas = true)
    by (vm_compute; reflexivity).
  split; [exact Htext|].
  destruct (@createClinicDetailsAccordion Examples.engine (JArr MoreExamples.twoAreas))
    as [dom|e] eqn:H; [|exfalso; revert H; vm_compute; discriminate].
  destruct (@X6_accordion_shape Examples.engine _ _ Htext H)
    as (items & Hdom & Hlen & Hall).
  exists dom, items. split; [reflexivity|]. split; [exact Hdom|]. split; [exact Hlen|].
  exact Hall.
Defined.

(** The two areas are plain and their texts hold no markup: their
    accordion can be built. *)
Lemma X7_witness :
  forallb plainArea MoreExamples.twoAreas = true /\
  forallb (@textArea Examples.engine) MoreExamples.twoAreas = true /\
  exists dom,
    @createClinicDetailsAccordion Examples.engine (JArr MoreExamples.twoAreas) = Ok dom.
Proof.
  assert (H : forallb plainArea MoreExamples.twoAreas = true) by (vm_compute; reflexivity).
  assert (Htext : forallb (@textArea Examples.engine) MoreExamples.twoAreas = true)
    by (vm_compute; reflexivity).
  split; [exact H|]. split; [exact Htext|].
  exact (@X7_plain_details_build Examples.engine _ H Htext).
Defined.

(** Details that are null: the details step throws a TypeError and
    leaves the page as it was. *)
Lemma X8_witness :
  @renderDetails Examples.engine Examples.junoEnv MoreExamples.nullDetails =
    (Err TypeError, MoreExamples.nullDetails).
Proof.
  exact (@X8_details_edge_values Examples.engine Examples.junoEnv
           MoreExamples.nullDetails eq_refl).
Defined.

(** The page on which everything answers: the three slots hold the
    title, the map and the accordion of the data, and the head holds
    the style element. *)
Lemma X11_witness :
  let after :=
    snd (@init Examples.engine Examples.junoEnv
           {| state := freshState true true true; world := MoreExamples.allAnswer |}) in
  titleSvg (state after) = "<svg id='title'/>"%string /\
  mapSvg (state after) = "<svg id='map'/>"%string /\
  clinicDetails (state after) = Examples.eastData /\
  childNodes (world after) 3 = [Examples.eastAccordion] /\
  childNodes (world after) 2 = [SvgDocument "<svg id='map'/>"] /\
  childNodes (world after) 1 = [SvgDocument "<svg id='title'/>"] /\
  childNodes (world after) 4 = [Text "loading"] /\
  head (world after) = [@styleElement Examples.junoEnv].
Proof.
  cbn zeta.
  assert (Hsel : forall p, @selector_ok Examples.engine
                             (partSelector Examples.junoEnv p) = true)
    by (intros []; vm_compute; reflexivity).
  assert (Hdom : @createClinicDetailsAccordion Examples.engine Examples.eastData =
                 Ok Examples.eastAccordion) by (vm_compute; reflexivity).
  pose proof (@X11_init_draws_all_three Examples.engine Examples.junoEnv
                {| state := freshState true true true; world := MoreExamples.allAnswer |}
                1 2 3
                (Examples.svgResponse "<svg id='title'/>")
                (Examples.svgResponse "<svg id='map'/>")
                (Examples.jsonResponse "[...]" Examples.eastData)
                "<svg id='title'/>" "<svg id='map'/>" Examples.eastData
                Examples.eastAccordion
                eq_refl eq_refl eq_refl
                eq_refl eq_refl eq_refl eq_refl eq_refl
                eq_refl eq_refl eq_refl eq_refl eq_refl
                eq_refl eq_refl eq_refl eq_refl
                eq_refl Hdom Hsel eq_refl eq_refl eq_refl)
    as (Ht & Hm & Hd & HelD & HelM & HelT & Hother & Hhead).
  split; [exact Ht|]. split; [exact Hm|]. split; [exact Hd|]. split; [exact HelD|].
  split; [apply HelM; discriminate|].
  split; [apply HelT; discriminate|].
  split; [|exact Hhead].
  rewrite Hother by discriminate. reflexivity.
Defined.

End EmbedderExtras.

(** ** Further facts about the height reporter *)

Module ReporterExtras.
Import Reporter ReporterTimelines ReporterFacts.
Local Open Scope Z_scope.

(** After a resize the timer is pending, whatever was pending before. *)
Lemma step_resize_same_width t p r :
  innerWidth (page r) = lastWidth r ->
  step t (Resize p) r =
  {| lastWidth := lastWidth r; timeout := Some (t + 200); page := p;
     posted := posted r |}.
Proof.
  intros Hw. unfold step. cbn [handle]. unfold debounce. cbn.
  destruct (runTimers_same_width t r Hw) as (-> & -> & _). reflexivity.
Qed.

Lemma step_resize_pending t due p r :
  timeout r = Some due -> t < due ->
  step t (Resize p) r =
  {| lastWidth := lastWidth r; timeout := Some (t + 200); page := p;
     posted := posted r |}.
Proof.
  intros Hdue Hlt. unfold step.
  rewrite (runTimers_early onResize t r due Hdue Hlt). reflexivity.
Qed.

Lemma last_default {A} (l : list A) : forall y d d',
  List.last (y :: l) d = List.last (y :: l) d'.
Proof.
  induction l as [|x l IH]; intros y d d'; [reflexivity|].
  change (List.last (x :: l) d = List.last (x :: l) d'). apply IH.
Qed.

Lemma last_cons {A} (l : list A) x d : List.last (x :: l) d = List.last l x.
Proof.
  destruct l as [|y l]; [reflexivity|].
  change (List.last (y :: l) d = List.last (y :: l) x). apply last_default.
Qed.

Lemma burst_pending items : forall t p r finish,
  timeout r = Some (t + 200) -> page r = p ->
  closeTogether t items ->
  let lastItem := List.last items (t, p) in
  (finish < fst lastItem + 200 ->
   posted (run (resizes items) finish r) = posted r) /\
  (fst lastItem + 200 <= finish ->
   lastWidth (run (resizes items) finish r) = innerWidth (snd lastItem) /\
   posted (run (resizes items) finish r) =
     posted r ++
     (if innerWidth (snd lastItem) =? lastWidth r then [] else [report (snd lastItem)])).
Proof.
  induction items as [|[t' p'] items IH]; intros t p r finish Hdue Hpage Hclose.
  - cbn [List.last fst snd resizes List.map run]. split; intros Hf.
    + rewrite (runTimers_early onResize finish r (t + 200)) by (auto; lia).
      reflexivity.
    + rewrite (runTimers_due onResize finish r (t + 200)) by (auto; lia).
      unfold onResize, sendHeight, report. cbn. rewrite Hpage.
      destruct (innerWidth p =? lastWidth r) eqn:E; cbn.
      * apply Z.eqb_eq in E. rewrite app_nil_r. auto.
      * auto.
  - destruct Hclose as [Hnear Hclose]. cbn [fst] in Hnear, Hclose.
    cbn [resizes List.map run fst snd].
    rewrite (step_resize_pending t' (t + 200) p' r Hdue) by lia.
    specialize (IH t' p'
      {| lastWidth := lastWidth r; timeout := Some (t' + 200); page := p';
         posted := posted r |} finish eq_refl eq_refl Hclose).
    cbn [lastWidth posted] in IH.
    rewrite last_cons. exact IH.
Qed.

(** X12.  A burst of resize events, each less than 200 ms after the one
    before, on a reporter whose last width is the width of its window:
    nothing is posted until 200 ms after the last event of the burst;
    from then on the width of that last event is the width remembered,
    and one report has been posted if that width differs from the one
    before the burst, none if it is the same, whatever the widths in
    between were. *)
Theorem X12_burst_reports_once items finish r t p :
  innerWidth (page r) = lastWidth r ->
  closeTogether t items ->
  let timeline := resizes ((t, p) :: items) in
  let lastItem := List.last items (t, p) in
  (finish < fst lastItem + 200 -> posted (run timeline finish r) = posted r) /\
  (fst lastItem + 200 <= finish ->
   lastWidth (run timeline finish r) = innerWidth (snd lastItem) /\
   posted (run timeline finish r) =
     posted r ++
     (if innerWidth (snd lastItem) =? lastWidth r then [] else [report (snd lastItem)])).
Proof.
  intros Hw Hclose. cbn zeta. cbn [resizes List.map run fst snd].
  rewrite (step_resize_same_width t p r Hw).
  apply (burst_pending items t p
           {| lastWidth := lastWidth r; timeout := Some (t + 200); page := p;
              posted := posted r |} finish eq_refl eq_refl Hclose).
Qed.

(** *** What is posted is only added to *)

Lemma sendHeight_posts r :
  posted (sendHeight r) = posted r ++ [report (page r)].
Proof. reflexivity. Qed.

Lemma grows_refl r : grows r r.
Proof. exists []. now rewrite app_nil_r. Qed.

Lemma grows_trans a b c : grows a b -> grows b c -> grows a c.
Proof.
  intros (x & Hx & Fx) (y & Hy & Fy). exists (x ++ y). split.
  - rewrite Hy, Hx. now rewrite app_assoc.
  - apply Forall_app. auto.
Qed.

Lemma grows_sendHeight r r0 :
  posted r0 = posted r -> page r0 = page r -> grows r (sendHeight r0).
Proof.
  intros Hp Hg. exists [report (page r)]. split.
  - rewrite sendHeight_posts, Hp, Hg. reflexivity.
  - constructor; [reflexivity | constructor].
Qed.

Lemma grows_same r r' : posted r' = posted r -> grows r r'.
Proof. intros H. exists []. rewrite H. now rewrite app_nil_r. Qed.

Lemma grows_onResize r : grows r (onResize r).
Proof.
  unfold onResize. destruct (negb _); [|apply grows_refl].
  apply grows_sendHeight; reflexivity.
Qed.

Lemma grows_runTimers now r : grows r (runTimers onResize now r).
Proof.
  unfold runTimers. destruct (timeout r) as [due|]; [|apply grows_refl].
  destruct (due <=? now); [|apply grows_refl].
  eapply grows_trans; [|apply grows_onResize]. apply grows_same. reflexivity.
Qed.

Lemma grows_handle now ev r : grows r (handle now ev r).
Proof.
  destruct ev as [p|[a|]|[|]|prop]; cbn [handle];
    try apply grows_refl; try (apply grows_same; reflexivity).
  - destruct (String.eqb a "getHeight"); [|apply grows_refl].
    apply grows_sendHeight; reflexivity.
  - apply grows_sendHeight; reflexivity.
  - destruct (String.eqb prop "padding-top"); [|apply grows_refl].
    apply grows_sendHeight; reflexivity.
Qed.

(** X13.  The reporter only ever adds to what it has posted, and what it
    adds are [sendIframeHeight] messages: after any events, the
    messages posted before are still there, in order, followed by
    reports. *)
Theorem X13_posts_only_reports timeline : forall finish r, grows r (run timeline finish r).
Proof.
  induction timeline as [|[t ev] timeline IH]; intros finish r; cbn [run].
  - apply grows_runTimers.
  - eapply grows_trans; [|apply IH]. unfold step.
    eapply grows_trans; [apply grows_runTimers | apply grows_handle].
Qed.

(** *** Catching up *)

Lemma settling_runTimers horizon now r :
  settling horizon r -> settling horizon (runTimers onResize now r).
Proof.
  unfold settling, runTimers. destruct (timeout r) as [due|] eqn:Hdue.
  - destruct (due <=? now); [|now rewrite Hdue].
    intros _. unfold onResize. cbn.
    destruct (innerWidth (page r) =? lastWidth r) eqn:E; cbn.
    + now apply Z.eqb_eq.
    + reflexivity.
  - now rewrite Hdue.
Qed.

Lemma settling_handle horizon now ev r :
  now <= horizon -> settling horizon r -> settling horizon (handle now ev r).
Proof.
  intros Hnow H. destruct ev as [p|[a|]|[|]|prop]; cbn [handle]; try exact H.
  - unfold settling. cbn. lia.
  - destruct (String.eqb a "getHeight"); exact H.
  - destruct (String.eqb prop "padding-top"); exact H.
Qed.

(** X14.  The reporter catches up: when no event comes after [horizon],
    and the timer that is pending, if there is one, is due by
    [horizon + 200], then from 200 ms after [horizon] on no timer is
    pending and the width remembered is the width of the window. *)
Theorem X14_reporter_catches_up timeline : forall horizon finish r,
  Forall (fun item => fst item <= horizon) timeline ->
  settling horizon r ->
  horizon + 200 <= finish ->
  caughtUp (run timeline finish r).
Proof.
  induction timeline as [|[t ev] timeline IH]; intros horizon finish r Hall Hs Hf;
    cbn [run].
  - unfold caughtUp, settling, runTimers in *.
    destruct (timeout r) as [due|] eqn:Hdue.
    + destruct (Z.leb_spec due finish); [|lia].
      unfold onResize. cbn.
      destruct (innerWidth (page r) =? lastWidth r) eqn:E; cbn.
      * apply Z.eqb_eq in E. auto.
      * auto.
    + rewrite Hdue. auto.
  - inversion Hall; subst. cbn [fst] in *.
    apply (IH horizon); auto. unfold step.
    apply settling_handle; [assumption|]. apply settling_runTimers. exact Hs.
Qed.

(** Three resizes, 100 ms apart, to 500, to 400 and to 500 again: nothing
    more is posted by 350 ms, and by 400 ms the height of the last
    window has been posted, once. *)
Lemma X12_witness :
  let timeline :=
    [(0, Resize ReporterExamples.narrow); (100, Resize ReporterExamples.narrower);
     (200, Resize ReporterExamples.narrow)] in
  posted (run timeline 350 (reactiveContent ReporterExamples.wide)) =
    [report ReporterExamples.wide] /\
  lastWidth (run timeline 400 (reactiveContent ReporterExamples.wide)) = 500 /\
  posted (run timeline 400 (reactiveContent ReporterExamples.wide)) =
    [report ReporterExamples.wide; report ReporterExamples.narrow].
Proof.
  cbn zeta.
  assert (Hclose : closeTogether 0 [(100, ReporterExamples.narrower);
                                    (200, ReporterExamples.narrow)])
    by (cbn; lia).
  pose proof (fun finish =>
                X12_burst_reports_once
                  [(100, ReporterExamples.narrower); (200, ReporterExamples.narrow)]
                  finish (reactiveContent ReporterExamples.wide) 0
                  ReporterExamples.narrow eq_refl Hclose) as H.
  split.
  - apply (proj1 (H 350)). cbn. lia.
  - apply (proj2 (H 400)). cbn. lia.
Defined.

(** The window narrows at 0 and at 100 ms and no event follows: at
    300 ms no timer is pending and the width remembered is 400. *)
Lemma X14_witness :
  caughtUp (run [(0, Resize ReporterExamples.narrow);
                 (100, Resize ReporterExamples.narrower)] 300
              (reactiveContent ReporterExamples.wide)).
Proof.
  apply (X14_reporter_catches_up _ 100).
  - repeat constructor; cbn; lia.
  - reflexivity.
  - lia.
Defined.

End ReporterExtras.

(** ** Facts about updateCss *)

Module UpdateCssFacts.
Import UpdateCss.
Local Open Scope string_scope.
Local Open Scope list_scope.

Lemma hexRun_spec n : forall s rest,
  hexRun n s = Some rest <->
  exists run, s = (run ++ rest)%string /\ String.length run = n /\ allHex run = true.
Proof.
  induction n as [|n IH]; intros s rest; cbn [hexRun].
  - split.
    + intros H. inversion H; subst. exists EmptyString. auto.
    + intros (run & -> & Hlen & _). destruct run; [reflexivity | discriminate].
  - destruct s as [|c s].
    + split; [discriminate|]. intros ([|c run] & Hs & Hlen & _); discriminate.
    + destruct (isHexDigit c) eqn:Hc.
      * rewrite IH. split.
        -- intros (run & -> & Hlen & Hhex). exists (String c run).
           unfold allHex in *. cbn. rewrite Hc, Hhex. auto.
        -- intros ([|c' run] & Hs & Hlen & Hhex); [discriminate|].
           inversion Hs; subst. exists run. unfold allHex in *. cbn in Hhex.
           apply andb_true_iff in Hhex. cbn in Hlen. intuition lia.
      * split; [discriminate|].
        intros ([|c' run] & Hs & Hlen & Hhex); [discriminate|].
        inversion Hs; subst. unfold allHex in Hhex. cbn in Hhex.
        rewrite Hc in Hhex. discriminate.
Qed.

Lemma append_empty s : (s ++ "")%string = s.
Proof. induction s as [|c s IH]; cbn; [|rewrite IH]; reflexivity. Qed.

Lemma wholeRun_spec n s :
  wholeRun n s = true <-> String.length s = n /\ allHex s = true.
Proof.
  unfold wholeRun. destruct (hexRun n s) as [[|c rest]|] eqn:H.
  - apply hexRun_spec in H. destruct H as (run & -> & Hlen & Hhex).
    rewrite append_empty. tauto.
  - split; [discriminate|]. intros [Hlen Hhex].
    assert (H' : hexRun n s = Some EmptyString).
    { apply hexRun_spec. exists s. rewrite append_empty. auto. }
    congruence.
  - split; [discriminate|]. intros [Hlen Hhex].
    assert (H' : hexRun n s = Some EmptyString).
    { apply hexRun_spec. exists s. rewrite append_empty. auto. }
    congruence.
Qed.

(** X15.  A color code is valid exactly when it is three or six
    characters long and each of them is a hexadecimal digit, of either
    case. *)
Theorem X15_validateColorCode_spec s :
  validateColorCode s = true <->
  (String.length s = 3 \/ String.length s = 6) /\ allHex s = true.
Proof.
  unfold validateColorCode. rewrite orb_true_iff, !wholeRun_spec. tauto.
Qed.

Lemma usable_valid v c :
  usable v = Some c -> v = Some c /\ validateColorCode c = true.
Proof.
  unfold usable. destruct v as [s|]; [|discriminate].
  destruct (JsString.nonempty s); cbn; [|discriminate].
  destruct (validateColorCode s) eqn:H; [|discriminate].
  intros E. inversion E; subst. auto.
Qed.

(** X16.  Every color that [updateCss] writes ([fill], [stroke] or
    [background-color]) is [#] followed by a valid color code, and that
    code is the value of [main-color] or of [sub-color] in the query:
    a value that is not three or six hexadecimal digits reaches no
    style. *)
Theorem X16_updateCss_colors q call :
  In call (updateCss q) ->
  isColorProperty (property call) = true ->
  exists c,
    value call = ("#" ++ c)%string /\ validateColorCode c = true /\
    (get "main-color" q = Some c \/ get "sub-color" q = Some c).
Proof.
  unfold updateCss. cbn [getQueryParamColorCode mainColor subColor isHiddenHead
                          isHiddenClinicList].
  rewrite !in_app_iff. intros [H|[H|[H|H]]] Hprop.
  - destruct (equals _ _); [|destruct H]. destruct H as [<-|[]]. discriminate.
  - destruct (equals _ _); [|destruct H]. destruct H as [<-|[]]. discriminate.
  - destruct (usable (get "main-color" q)) as [c|] eqn:Hc; [|destruct H].
    apply usable_valid in Hc. destruct Hc as [Hget Hvalid].
    exists c. cbn in H. intuition (subst; auto).
  - destruct (usable (get "sub-color" q)) as [c|] eqn:Hc; [|destruct H].
    apply usable_valid in Hc. destruct Hc as [Hget Hvalid].
    exists c. cbn in H. intuition (subst; auto).
Qed.

(** A query with a valid main color and an invalid sub color: the fill
    of the map is the main color. *)
Lemma X16_witness :
  exists c,
    ("#" ++ "fd7ea5")%string = ("#" ++ c)%string /\ validateColorCode c = true /\
    (get "main-color" QueryExamples.pinkQuery = Some c \/
     get "sub-color" QueryExamples.pinkQuery = Some c).
Proof.
  apply (X16_updateCss_colors QueryExamples.pinkQuery
           {| selector := "#svg-map-bg"; property := "fill"; value := "#fd7ea5" |}).
  - vm_compute. tauto.
  - reflexivity.
Defined.

End UpdateCssFacts.
